(** * Lab report generator: the PDF table, the panels and the report pipeline

    A shallow embedding of [lab_report_generator.py].  The Python program
    builds a PDF with the FPDF library: a patient block, then one section
    per selected panel, each a table of test rows whose Result cell is set in
    bold when the value lies outside the stated normal range.

    Layout of this file:
    - [Py]: Python strings (lists of code points) and the string methods the
      program calls ([strip], [split], [upper], [replace]);
    - [PyFloat]: the interface of Python's [float]: parsing, [<] and
      truthiness, with a decimal instance used to run the model;
    - the FPDF object as a state record with a small exception monad, the
      library calls the program makes, and the overridden [header]/[footer];
    - the program's own functions, under their source names;
    - the properties. *)

From Stdlib Require Import QArith Qreduction Floats.
From Stdlib Require Import Ascii String DecimalString.
From stdpp Require Import base option list gmap.

Set Default Proof Using "Type".
Set Warnings "-inexact-float".
Local Open Scope N_scope.

(** Python's numbers with a fraction are binary64 floats; the lengths and
    positions of the PDF library are such numbers. *)
Abbreviation num := PrimFloat.float (only parsing).

(** ** Python strings *)

Module Py.

(** A Python [str] is a sequence of Unicode code points. *)
Abbreviation pystr := (list N) (only parsing).

(** ASCII literals of the source are written [py "..."]. *)
Definition py (s : String.string) : pystr :=
  map Ascii.N_of_ascii (String.list_ascii_of_string s).
Arguments py s%_string.

(** [str.isspace] on one character: the code points Python treats as
    whitespace, which is what [str.strip()] removes. *)
Definition isspace (c : N) : bool :=
  ((9 <=? c) && (c <=? 13)) || ((28 <=? c) && (c <=? 32))
  || (c =? 133) || (c =? 160) || (c =? 5760)
  || ((8192 <=? c) && (c <=? 8202))
  || (c =? 8232) || (c =? 8233) || (c =? 8239) || (c =? 8287) || (c =? 12288).

Fixpoint lstrip (s : pystr) : pystr :=
  match s with
  | [] => []
  | c :: s' => if isspace c then lstrip s' else s
  end.

Definition rstrip (s : pystr) : pystr := rev (lstrip (rev s)).

(** [s.strip()] *)
Definition strip (s : pystr) : pystr := rstrip (lstrip s).

(** [s.split(sep)] for a one-character separator: never the empty list,
    ["".split("-")] is [[""]]. *)
Fixpoint split (sep : N) (s : pystr) : list pystr :=
  match s with
  | [] => [[]]
  | c :: s' =>
      if c =? sep then [] :: split sep s'
      else match split sep s' with
           | [] => [[c]]
           | f :: fs => (c :: f) :: fs
           end
  end.

(** [s.upper()]; the program applies it to its own ASCII titles, and the
    model maps the ASCII letters and leaves other code points alone. *)
Definition upper_char (c : N) : N :=
  if (97 <=? c) && (c <=? 122) then c - 32 else c.
Definition upper (s : pystr) : pystr := map upper_char s.

Definition lower_char (c : N) : N :=
  if (65 <=? c) && (c <=? 90) then c + 32 else c.
Definition lower (s : pystr) : pystr := map lower_char s.

(** [s.replace(a, b)] for one-character [a] and [b]. *)
Definition replace (a b : N) (s : pystr) : pystr :=
  map (fun c => if c =? a then b else c) s.

(** Truthiness of a string: non-empty. *)
Definition nonempty (s : pystr) : bool :=
  match s with [] => false | _ => true end.

Definition str_eqb (a b : pystr) : bool := bool_decide (a = b).

(** [x in xs] for a list of strings. *)
Definition str_in (x : pystr) (xs : list pystr) : bool := bool_decide (x ∈ xs).

(** Cell values of the data frames the program handles: the data editor
    yields text, or a missing value ([None] or [NaN]) for a cleared cell. *)
Inductive value :=
  | VStr (s : pystr)
  | VNone
  | VNaN.

(** [str(v)] *)
Definition str (v : value) : pystr :=
  match v with
  | VStr s => s
  | VNone => py "None"
  | VNaN => py "nan"
  end.

(** [pd.notna(v)] *)
Definition notna (v : value) : bool :=
  match v with VStr _ => true | _ => false end.

End Py.
Export Py.

(** ** Python floats

    [float(s)] and the comparisons on its results belong to the interpreter.
    The program only parses a string, tests the value for truth (non-zero)
    and compares two values with [<] and [>]; that interface is all the
    properties below rely on. *)

Class PyFloat := {
  pyfloat : Type;
  (** [float(s)]; [None] stands for [ValueError]. *)
  float : pystr -> option pyfloat;
  (** [a < b]; [a > b] is [flt b a]. *)
  flt : pyfloat -> pyfloat -> bool;
  (** [bool(a)]: [a != 0]. *)
  ftruth : pyfloat -> bool;
  flt_irrefl : forall a, flt a a = false
}.

(** *** A decimal instance

    Finite values are the exact rationals a decimal literal denotes (kept
    reduced), next to the two infinities and NaN.  Rounding to binary64 is
    not part of this instance. *)

(** [a < b] on the rationals that stand for finite values. *)
Definition Qltb (a b : Q) : bool := negb (Qle_bool b a).

Module Dec.

Inductive dec :=
  | Fin (q : Q)
  | Inf (negative : bool)
  | NaN.

Definition lt (a b : dec) : bool :=
  match a, b with
  | NaN, _ | _, NaN => false
  | Fin x, Fin y => Qltb x y
  | Fin _, Inf n => negb n
  | Inf n, Fin _ => n
  | Inf n, Inf m => n && negb m
  end.

Definition truth (a : dec) : bool :=
  match a with
  | Fin q => negb (Qeq_bool q 0)
  | _ => true
  end.

Definition is_digit (c : N) : bool := (48 <=? c) && (c <=? 57).

(** Reads a run of ASCII digits: its value, its length, and the rest. *)
Fixpoint digits (acc : N) (n : nat) (s : pystr) : N * nat * pystr :=
  match s with
  | c :: s' => if is_digit c then digits (10 * acc + (c - 48)) (S n) s'
               else (acc, n, s)
  | [] => (acc, n, s)
  end.

Definition sign (s : pystr) : bool * pystr :=
  match s with
  | 45 :: s' => (true, s')
  | 43 :: s' => (false, s')
  | _ => (false, s)
  end.

(** The exponent part: absent, or [e]/[E], an optional sign and digits. *)
Definition exponent (s : pystr) : option Z :=
  match s with
  | [] => Some 0%Z
  | c :: s' =>
      if (c =? 101) || (c =? 69) then
        let '(neg, s'') := sign s' in
        match digits 0 0 s'' with
        | (_, O, _) => None
        | (e, _, []) => Some (if neg then (- Z.of_N e)%Z else Z.of_N e)
        | _ => None
        end
      else None
  end.

Definition scale (m : N) (e : Z) : Q :=
  Qred (if (0 <=? e)%Z then inject_Z (Z.of_N m * 10 ^ e)
        else Qmake (Z.of_N m) (Z.to_pos (10 ^ (- e)))).

Definition magnitude (s : pystr) : option dec :=
  let l := lower s in
  if str_eqb l (py "inf") || str_eqb l (py "infinity") then Some (Inf false)
  else if str_eqb l (py "nan") then Some NaN
  else
    let '(ip, ni, r1) := digits 0 0 s in
    let '(fp, nf, r2) :=
      match r1 with
      | 46 :: r => digits 0 0 r
      | _ => (0, O, r1)
      end in
    match (ni + nf)%nat with
    | O => None
    | _ =>
        match exponent r2 with
        | Some e => Some (Fin (scale (ip * 10 ^ N.of_nat nf + fp) (e - Z.of_nat nf)))
        | None => None
        end
    end.

Definition negate (d : dec) : dec :=
  match d with
  | Fin q => Fin (Qred (- q))
  | Inf n => Inf (negb n)
  | NaN => NaN
  end.

(** [float(s)] on plain decimal literals: surrounding whitespace, a sign,
    digits with an optional fraction and exponent, or [inf]/[nan]. *)
Definition parse (s : pystr) : option dec :=
  let '(neg, body) := sign (strip s) in
  d ← magnitude body; Some (if neg then negate d else d).

End Dec.

(** ** The FPDF object

    The state of an [FPDF] instance as far as the program can observe it: the
    page counter, the vertical position, the selected font, and what has been
    drawn so far.  Lengths are in millimetres, as binary64 floats with the
    library's own arithmetic.  Horizontal positions, colours and line widths
    are not tracked. *)

Record Font := {
  family : pystr;
  style : pystr;
  size : Z
}.

(** Where a drawing call comes from: the document body, or the [header] or
    [footer] hook that [add_page] runs ([in_footer] in the library). *)
Inductive Layer := Body | Header | Footer.

Inductive Op :=
  | OPage (n : nat)
  | OCell (layer : Layer) (w h : num) (txt : pystr) (font : Font)
          (underline : bool) (align : pystr) (fill : bool)
  | OLine (layer : Layer) (y1 y2 : num).

(** [unifontsubset] is the attribute [set_font] creates when it selects a
    font ([False] for the built-in fonts); [None] stands for an object that
    does not have it yet. *)
Record PDF := {
  page : nat;
  y : num;
  h : num;
  t_margin : num;
  auto_page_break : bool;
  page_break_trigger : num;
  font : Font;
  underline : bool;
  unifontsubset : option bool;
  layer : Layer;
  ops : list Op;
  logo_path : option pystr;
  is_first_page : bool
}.

#[export] Instance Font_eq_dec : EqDecision Font.
Proof. solve_decision. Defined.
#[export] Instance Layer_eq_dec : EqDecision Layer.
Proof. solve_decision. Defined.

Inductive exn :=
  | UndefinedFont (key : pystr)
  | ValueError
  | KeyError (key : pystr)
  | OSError (path : pystr)
  | AttributeError (name : pystr)
  | UnicodeEncodeError.

Inductive res (A : Type) :=
  | Ok (a : A)
  | Raise (e : exn).
Arguments Ok {A} a.
Arguments Raise {A} e.

(** Methods run on the object and either return or raise; what they did to
    the object before raising stays done. *)
Definition M (A : Type) : Type := PDF -> res A * PDF.

#[export] Instance M_ret : MRet M := fun A a s => (Ok a, s).
#[export] Instance M_bind : MBind M := fun A B f m s =>
  match m s with
  | (Ok a, s') => f a s'
  | (Raise e, s') => (Raise e, s')
  end.

Definition raise {A} (e : exn) : M A := fun s => (Raise e, s).

(** [try: m  except: handler], with a handler that ignores the exception. *)
Definition try_except {A} (m handler : M A) : M A := fun s =>
  match m s with
  | (Raise _, s') => handler s'
  | r => r
  end.

Definition get {A} (f : PDF -> A) : M A := fun s => (Ok (f s), s).
Definition modify (f : PDF -> PDF) : M unit := fun s => (Ok tt, f s).

(** [for x in xs: body(x)] *)
Fixpoint for_each {A} (xs : list A) (body : A -> M unit) : M unit :=
  match xs with
  | [] => mret tt
  | x :: xs' => body x ;; for_each xs' body
  end.

Module FPDF.

Definition set_y_field (v : num) (s : PDF) : PDF :=
  {| page := page s; y := v; h := h s; t_margin := t_margin s;
     auto_page_break := auto_page_break s;
     page_break_trigger := page_break_trigger s; font := font s;
     underline := underline s;
     unifontsubset := unifontsubset s; layer := layer s; ops := ops s;
     logo_path := logo_path s; is_first_page := is_first_page s |}.

Definition set_font_field (f : Font) (u : bool) (s : PDF) : PDF :=
  {| page := page s; y := y s; h := h s; t_margin := t_margin s;
     auto_page_break := auto_page_break s;
     page_break_trigger := page_break_trigger s; font := f;
     underline := u;
     unifontsubset := unifontsubset s; layer := layer s; ops := ops s;
     logo_path := logo_path s; is_first_page := is_first_page s |}.

Definition set_layer_field (l : Layer) (s : PDF) : PDF :=
  {| page := page s; y := y s; h := h s; t_margin := t_margin s;
     auto_page_break := auto_page_break s;
     page_break_trigger := page_break_trigger s; font := font s;
     underline := underline s;
     unifontsubset := unifontsubset s; layer := l; ops := ops s;
     logo_path := logo_path s; is_first_page := is_first_page s |}.

Definition emit (o : Op) (s : PDF) : PDF :=
  {| page := page s; y := y s; h := h s; t_margin := t_margin s;
     auto_page_break := auto_page_break s;
     page_break_trigger := page_break_trigger s; font := font s;
     underline := underline s;
     unifontsubset := unifontsubset s; layer := layer s; ops := ops s ++ [o];
     logo_path := logo_path s; is_first_page := is_first_page s |}.

(** What [set_font] does once the font is known: the font is selected and
    [unifontsubset] is there from now on. *)
Definition select_font (f : Font) (u : bool) (s : PDF) : PDF :=
  {| page := page s; y := y s; h := h s; t_margin := t_margin s;
     auto_page_break := auto_page_break s;
     page_break_trigger := page_break_trigger s; font := f;
     underline := u; unifontsubset := Some false; layer := layer s;
     ops := ops s;
     logo_path := logo_path s; is_first_page := is_first_page s |}.

(** [_beginpage]: the next page, the cursor at the top margin, no font. *)
Definition begin_page (s : PDF) : PDF :=
  {| page := S (page s); y := t_margin s; h := h s; t_margin := t_margin s;
     auto_page_break := auto_page_break s;
     page_break_trigger := page_break_trigger s;
     font := {| family := []; style := style (font s); size := size (font s) |};
     underline := underline s;
     unifontsubset := unifontsubset s; layer := layer s;
     ops := ops s ++ [OPage (S (page s))];
     logo_path := logo_path s; is_first_page := is_first_page s |}.

(** The points-per-millimetre factor and the A4 page of the constructor. *)
Definition k : num := (72 / 25.4)%float.
Definition a4_height : num := (841.89 / k)%float.
Definition default_margin : num := (28.35 / k)%float.

(** [FPDF()], portrait A4 in millimetres. *)
Definition init : PDF :=
  {| page := O; y := 0%float; h := a4_height; t_margin := default_margin;
     auto_page_break := true;
     page_break_trigger := (a4_height - 2 * default_margin)%float;
     font := {| family := []; style := []; size := 12 |};
     underline := false; unifontsubset := None; layer := Body; ops := [];
     logo_path := None; is_first_page := true |}.

(** [set_auto_page_break(auto, margin)] *)
Definition set_auto_page_break (auto : bool) (margin : num) : M unit :=
  modify (fun s =>
    {| page := page s; y := y s; h := h s; t_margin := t_margin s;
       auto_page_break := auto;
       page_break_trigger := (h s - margin)%float; font := font s;
       underline := underline s;
     unifontsubset := unifontsubset s; layer := layer s; ops := ops s;
       logo_path := logo_path s; is_first_page := is_first_page s |}).

Definition get_y : M num := get y.

(** [set_y(v)]: from the top, or from the bottom when negative. *)
Definition set_y (v : num) : M unit :=
  modify (fun s =>
    set_y_field (if PrimFloat.leb 0 v then v else (h s + v)%float) s).

(** [ln(h)] *)
Definition ln (hh : num) : M unit :=
  modify (fun s => set_y_field (y s + hh)%float s).

(** The fonts every FPDF object knows without [add_font]. *)
Definition core_font (fam sty : pystr) : bool :=
  (str_in fam [py "courier"; py "helvetica"; py "times"]
   && str_in sty [py ""; py "B"; py "I"; py "BI"])
  || (str_in fam [py "symbol"; py "zapfdingbats"] && str_eqb sty (py "")).

(** [set_font(family, style, size)].  The style is upper-cased, [U] is taken
    out as the underline flag, and the remaining key must name a known font:
    anything else raises, and the selected font stays as it was.  (The
    library returns at once when the font asked for is the selected one;
    selecting it again changes nothing of the state kept here.) *)
Definition set_font (fam sty : pystr) (sz : Z) : M unit := fun s =>
  let fam := lower fam in
  let fam := if str_eqb fam (py "") then family (font s) else fam in
  let fam := if str_eqb fam (py "arial") then py "helvetica" else fam in
  let sty := if str_in fam [py "symbol"; py "zapfdingbats"] then py "" else sty in
  let sty := upper sty in
  let u := bool_decide (85 ∈ sty) in
  let sty := filter (fun c => c ≠ 85) sty in
  let sty := if str_eqb sty (py "IB") then py "BI" else sty in
  let sz := if (sz =? 0)%Z then size (font s) else sz in
  let s := set_font_field (font s) u s in
  if core_font fam sty
  then (Ok tt, select_font {| family := fam; style := sty; size := sz |} u s)
  else (Raise (UndefinedFont (fam ++ sty)), s).

(** [line(x1, y1, x2, y2)] *)
Definition line (y1 y2 : num) : M unit :=
  modify (fun s => emit (OLine (layer s) y1 y2) s).

(** The drawing part of [cell]: the text goes out in the selected font, and
    the cursor moves down by the cell height when [ln] is 1. *)
Definition put_cell (w hh : num) (txt : pystr) (ln : bool) (align : pystr)
    (fill : bool) : M unit :=
  modify (fun s =>
    let s := emit (OCell (layer s) w hh txt (font s) (underline s) align fill) s in
    if ln then set_y_field (y s + hh)%float s else s).

(** Runs a hook with [layer] set, as [add_page] does around [header] and
    [footer]; an exception leaves the flag set. *)
Definition in_layer (l : Layer) (m : M unit) : M unit :=
  modify (set_layer_field l);; m;; modify (set_layer_field Body).

(** [add_page()], given the two hooks of the subclass.  The footer closes the
    page that ends, the header opens the new one, and the font that was
    selected on entry is selected again on exit. *)
Definition add_page_with (header footer : M unit) : M unit :=
  saved ← get font;
  u ← get underline;
  p ← get page;
  (if (0 <? p)%nat then in_layer Footer footer else mret tt);;
  modify begin_page;;
  let restore :=
    if nonempty (family saved) then modify (select_font saved u)
    else mret tt in
  restore;;
  in_layer Header header;;
  restore.

(** [cell(w, h, txt, border, ln, align, fill)] with no border.  The text is
    first normalised, which reads [unifontsubset] and so fails on an object
    that never had a font selected.  Then a cell that would cross the
    page-break trigger starts a new page, except while the footer is being
    drawn. *)
Definition cell_with (header footer : M unit) (w hh : num) (txt : pystr)
    (ln : bool) (align : pystr) (fill : bool) : M unit :=
  s ← get id;
  match unifontsubset s with
  | None => raise (AttributeError (py "unifontsubset"))
  | Some _ =>
      (if PrimFloat.ltb (page_break_trigger s) (y s + hh)%float
          && negb (bool_decide (layer s = Footer)) && auto_page_break s
       then add_page_with header footer else mret tt);;
      put_cell w hh txt ln align fill
  end.

(** [close()]: an empty document gets its page, the last page its footer. *)
Definition close_with (header footer : M unit) : M unit :=
  p ← get page;
  (if (p =? 0)%nat then add_page_with header footer else mret tt);;
  in_layer Footer footer.

(** The pages are written out in Latin-1: a text with a character beyond
    code point 255 cannot be encoded. *)
Definition text_ok (o : Op) : bool :=
  match o with
  | OCell _ _ _ txt _ _ _ _ => forallb (fun c => c <=? 255) txt
  | _ => true
  end.
Definition encodable (l : list Op) : bool := forallb text_ok l.

End FPDF.

(** ** [class LabReportPDF(FPDF)] *)

Import FPDF.

(** [__init__(logo_path)] *)
Definition LabReportPDF (logo : option pystr) : PDF :=
  let s := (set_auto_page_break true 60 FPDF.init).2 in
  {| page := page s; y := y s; h := h s; t_margin := t_margin s;
     auto_page_break := auto_page_break s;
     page_break_trigger := page_break_trigger s; font := font s;
     underline := underline s;
     unifontsubset := unifontsubset s; layer := layer s; ops := ops s;
     logo_path := logo; is_first_page := true |}.

Definition header : M unit :=
  ln 25;;
  y0 ← get_y;
  line y0 y0;;
  ln 5.

(** [footer] runs with [in_footer] set, where [cell] never breaks the page,
    and right after [set_font], so [unifontsubset] is there: its one [cell]
    call is the drawing part alone (see [cell_in_footer]). *)
Definition footer : M unit :=
  set_y (-50);;
  set_y (-40);;
  set_font (py "Arial") (py "I") 8;;
  put_cell 0 4 (py "Bold Indicates Abnormal Values") true (py "C") false;;
  ln 2.

Definition add_page : M unit := add_page_with header footer.
Definition cell : num -> num -> pystr -> bool -> pystr -> bool -> M unit :=
  cell_with header footer.
Definition close : M unit := close_with header footer.

Definition add_report_title (title : pystr) : M num :=
  y_before ← get_y;
  set_font (py "Arial") (py "B") 14;;
  cell 0 10 (upper title) true (py "C") false;;
  y0 ← get_y;
  line y0 y0;;
  ln 6;;
  set_font (py "Arial") (py "B") 9;;
  cell 60 8 (py "TEST") false (py "L") true;;
  cell 30 8 (py "RESULT") false (py "C") true;;
  cell 25 8 (py "UNITS") false (py "C") true;;
  cell 75 8 (py "NORMAL VALUES") true (py "C") true;;
  ln 2;;
  get_y.

Definition check_page_break (height_needed : num) : M bool :=
  current_y ← get_y;
  hh ← get h;
  let page_height := (hh - 60)%float in
  if PrimFloat.ltb page_height (current_y + height_needed)%float then
    add_page;; mret true
  else mret false.

Definition add_report_section (title : pystr) (height_estimate : num)
    : M unit :=
  _ ← check_page_break height_estimate;
  set_font (py "Arial") (py "B") 12;;
  cell 0 8 (upper title) true (py "C") false;;
  ln 3.

Record PatientInfo := {
  lab_no : pystr;
  patient_name : pystr;
  ref_by : pystr;
  sample_collection : pystr;
  reg_date : pystr;
  sample_date : pystr;
  report_date : pystr;
  sex : pystr;
  age : N
}.

(** [str(n)] for a non-negative integer. *)
Definition str_of_N (n : N) : pystr :=
  py (DecimalString.NilZero.string_of_uint (N.to_uint n)).

(** One labelled entry of the patient block: three [cell] calls, the last
    one ending the line in the right-hand column. *)
Definition field (label : string) (v : pystr) (last : bool) : M unit :=
  cell 30 5 (py label) false (py "") false;;
  cell 5 5 (py ":") false (py "") false;;
  cell 50 5 v last (py "") false.
Arguments field label%_string v last.

Definition add_patient_info (patient_info : PatientInfo) : M unit :=
  set_font (py "Arial") (py "B") 9;;
  field "LAB NO." (lab_no patient_info) false;;
  field "REG DATE" (reg_date patient_info) true;;
  field "PATIENT NAME" (patient_name patient_info) false;;
  field "SAMPLE DATE" (sample_date patient_info) true;;
  field "REF. BY DR." (ref_by patient_info) false;;
  field "REPORT DATE" (report_date patient_info) true;;
  field "SAMPLE COLL. AT" (sample_collection patient_info) false;;
  field "SEX / AGE"
    (sex patient_info ++ py " / " ++ str_of_N (age patient_info) ++ py " Years")
    true;;
  ln 5;;
  y0 ← get_y;
  line y0 y0;;
  ln 5.

(** ** Data frames

    The four columns every table of the program has.  A frame is the list of
    its rows, in index order. *)

Record Row := {
  Test : value;
  Result : value;
  Units : value;
  Normal_Values : value
}.

Abbreviation DataFrame := (list Row) (only parsing).

(** [pd.DataFrame({"Test": .., "Result": .., "Units": .., "Normal Values": ..})]
    from four columns of text. *)
Fixpoint frame (tests results units normals : list pystr) : list Row :=
  match tests, results, units, normals with
  | t :: ts, r :: rs, u :: us, n :: ns =>
      {| Test := VStr t; Result := VStr r; Units := VStr u;
         Normal_Values := VStr n |} :: frame ts rs us ns
  | _, _, _, _ => []
  end.

(** [col.isin(names)] on one cell. *)
Definition isin (v : value) (names : list pystr) : bool :=
  match v with
  | VStr s => str_in s names
  | _ => false
  end.

(** [data[data['Test'].isin(names)]] *)
Definition select_tests (names : list pystr) (data : list Row) : list Row :=
  List.filter (fun row => isin (Test row) names) data.

(** [row['Result'].notna() & (str(row['Result']).strip() != '')] *)
Definition has_result (row : Row) : bool :=
  notna (Result row) && negb (str_eqb (strip (str (Result row))) []).

(** ** The table of test rows *)

Section Table.
Context `{PyFloat}.

(** Truthiness of a bound that may still be [None]. *)
Definition truthy (o : option pyfloat) : bool :=
  match o with
  | Some a => ftruth a
  | None => false
  end.

(** The [try] block that reads the two bounds off the range text.  The lower
    bound is assigned before the upper one is attempted, so a failure on the
    upper bound leaves the lower one set; a value that is no string has no
    [split]. *)
Definition parse_range (normal_values : value)
    : option pyfloat * option pyfloat :=
  match normal_values with
  | VStr s =>
      match (t ← split 45 s !! 0%nat; float t : option pyfloat) with
      | None => (None, None)
      | Some lower_value =>
          (Some lower_value,
           (t ← split 45 s !! 1%nat; u ← split 32 t !! 1%nat; float u))
      end
  | _ => (None, None)
  end.

Definition regular_result (result_str : pystr) : M unit :=
  set_font (py "Arial") (py "    ") 9;;
  cell 30 5 result_str false (py "C") false;;
  set_font (py "Arial") (py "") 9.

Definition bold_result (result_str : pystr) : M unit :=
  set_font (py "Arial") (py "B") 9;;
  cell 30 5 result_str false (py "C") false;;
  set_font (py "Arial") (py "") 9.

(** The body of the loop over [data.iterrows()]. *)
Definition render_row (row : Row) : M unit :=
  let result_str := if notna (Result row) then str (Result row) else [] in
  let '(lower_value, upper_value) := parse_range (Normal_Values row) in
  cell 60 5 (str (Test row)) false (py "L") false;;
  (if nonempty result_str && nonempty (strip result_str) then
     try_except
       (match float result_str with
        | None => raise ValueError
        | Some r =>
            match lower_value, upper_value with
            | Some lo, Some hi =>
                if ftruth r && ftruth lo && ftruth hi then
                  if flt r lo then bold_result result_str
                  else if flt hi r then bold_result result_str
                  else regular_result result_str
                else regular_result result_str
            | _, _ => regular_result result_str
            end
        end)
       (set_font (py "Arial") (py "") 9;;
        cell 30 5 result_str false (py "C") false;;
        set_font (py "Arial") (py "") 9)
   else cell 30 5 result_str false (py "C") false);;
  cell 25 5 (str (Units row)) false (py "C") false;;
  cell 75 5 (str (Normal_Values row)) true (py "C") false.

Definition add_test_table (data : list Row) (section_title : option pystr)
    : M unit :=
  match section_title with
  | Some title =>
      if nonempty title then
        set_font (py "Arial") (py "B") 10;;
        cell 0 6 (upper title) true (py "L") false;;
        ln 2
      else mret tt
  | None => mret tt
  end;;
  set_font (py "Arial") (py "") 9;;
  for_each data render_row;;
  ln 5.

(** ** The report generators *)

(** The helper both generators define locally, with the same body. *)
Definition print_if_has_result (subset : list Row)
    (section_title : option pystr) : M unit :=
  let subset := List.filter has_result subset in
  match subset with
  | [] => mret tt
  | _ => add_test_table subset section_title
  end.

(** [report_data[name]] *)
Definition lookup_report (report_data : gmap (list N) (list Row))
    (name : pystr) : M (list Row) :=
  match report_data !! name with
  | Some data => mret data
  | None => raise (KeyError name)
  end.

Definition CBC : pystr := py "Complete Blood Count (CBC)".
Definition LFT : pystr := py "Liver Function Test (LFT)".
Definition KFT : pystr := py "Kidney Function Test (KFT)".
Definition TFT : pystr := py "Thyroid Function Test (TFT)".

Definition generate_cbc_report (patient_info : PatientInfo)
    (report_data : gmap (list N) (list Row)) : M unit :=
  data ← lookup_report report_data CBC;
  _ ← add_report_title (py "COMPLETE BLOOD COUNT(CBC)");
  let basic_tests := [py "Haemoglobin"; py "RBC Count"; py "PCV"] in
  let basic_data := select_tests basic_tests data in
  print_if_has_result basic_data None;;
  let rbc_indices := [py "MCV"; py "MCH"; py "MCHC"; py "RDW"] in
  let rbc_data := select_tests rbc_indices data in
  print_if_has_result rbc_data (Some (py "RBC INDICES"));;
  let wbc_tests := [py "Total WBC Count"; py "Neutrophils"; py "Lymphocytes";
                    py "Eosinophils"; py "Monocytes"; py "Basophils"] in
  let wbc_data := select_tests wbc_tests data in
  print_if_has_result wbc_data (Some (py "TOTAL WBC COUNT"));;
  let platelet_tests := [py "Platelet Count"; py "Platelets on Smear"] in
  let platelet_data := select_tests platelet_tests data in
  print_if_has_result platelet_data (Some (py "PLATELETS"));;
  let smear_tests := [py "RBC Morphology"; py "WBCs on PS"; py "RDWSD";
                      py "RDWCV"; py "MPV"; py "P-LCR"] in
  let smear_data := select_tests smear_tests data in
  print_if_has_result smear_data (Some (py "PERIPHERAL BLOOD SMEAR"));;
  set_font (py "Arial") (py "I") 8;;
  cell 0 5
    (py "Test done on Nihon Kohden MEK- 6420K fully automated cell counter.")
    true (py "") false;;
  ln 5.

Definition generate_lft_report (patient_info : PatientInfo)
    (report_data : gmap (list N) (list Row)) : M unit :=
  data ← lookup_report report_data LFT;
  _ ← add_report_title (py "Liver Function Test (LFT)");
  let basic_tests := [py "Bilirubin Total"; py "Bilirubin Direct";
                      py "Bilirubin Indirect"; py "S.G.O.T."; py "S.G.P.T.";
                      py "Alkaline Phosphatase"; py "Total Proteins";
                      py "Albumin"; py "Globulin"; py "A / G Ratio";
                      py "G.G.T.P."] in
  let basic_data := select_tests basic_tests data in
  print_if_has_result basic_data None;;
  set_font (py "Arial") (py "I") 8;;
  cell 0 5 (py "Test Done on semi automated analyser Micro Lab RX-50.")
    true (py "") false;;
  ln 5.

End Table.

(** ** Templates *)

Definition load_report_template (report_name : pystr) : list Row :=
  if str_eqb report_name CBC then
    frame
      [py "Haemoglobin"; py "RBC Count"; py "PCV";
       py "MCV"; py "MCH"; py "MCHC"; py "RDW";
       py "Total WBC Count"; py "Neutrophils"; py "Lymphocytes";
       py "Eosinophils"; py "Monocytes"; py "Basophils";
       py "Platelet Count"; py "Platelets on Smear";
       py "RBC Morphology"; py "WBCs on PS"; py "RDWSD"; py "RDWCV";
       py "MPV"; py "P-LCR"]
      (replicate 21 (py ""))
      [py "g%"; py "million/cu.mm."; py "%";
       py "fl"; py "pg"; py "%"; py "fl";
       py "/cu.mm"; py "%"; py "%";
       py "%"; py "%"; py "%";
       py "lak/cu.mm"; py "";
       py ""; py ""; py "fl"; py "%"; py "fl"; py "%"]
      [py "Male: 14 - 16 g%, Female: 12 - 14 g%"; py "4.0 - 6.0 million/cu.mm";
       py "35 - 60 %";
       py "80 - 99 fl"; py "27 - 31 pg"; py "32 - 37 %"; py "9 - 17 fl";
       py "4000 - 10,000 /cu.mm"; py "40 - 70 %"; py "20 - 45 %";
       py "00 - 06 %"; py "00 - 08 %"; py "00 - 01 %";
       py "150000 - 450000 /lak cu.mm"; py "Adequate On Smear";
       py "Normocytic, Normochromic"; py "Normal"; py "37 - 54 fl";
       py "11 - 16 %"; py "9 - 13 fl"; py "13 - 43 %"]
  else if str_eqb report_name LFT then
    frame
      [py "Bilirubin Total"; py "Bilirubin Direct"; py "Bilirubin Indirect";
       py "S.G.O.T."; py "S.G.P.T."; py "Alkaline Phosphatase";
       py "Total Proteins"; py "Albumin"; py "Globulin"; py "A / G Ratio";
       py "G.G.T.P."]
      (replicate 11 (py ""))
      [py "mg/dl"; py "mg/dl"; py "mg/dl"; py "U/L"; py "IU/L"; py "IU/L";
       py "gm/dl"; py "gm/dl"; py "gm/dl"; py ""; py "IU/L"]
      [py "0.1 - 1.2 mg/dl"; py "0.1 - 0.4 mg/dl"; py "0.1 - 0.7 mg/dl";
       py "0 - 46 U/L"; py "0 - 49 U/L"; py "15 - 112 IU/L";
       py "6.0 - 8.3 gm/dl"; py "3.2 - 5.0 gm/dl"; py "2.0 - 3.5 gm/dl";
       py "1.0 - 2.3"; py "25 - 43 IU/L"]
  else if str_eqb report_name KFT then
    frame
      [py "Blood Urea"; py "Serum Creatinine"; py "Uric Acid";
       py "Sodium"; py "Potassium"; py "Chloride"]
      (replicate 6 (py ""))
      [py "mg/dl"; py "mg/dl"; py "mg/dl"; py "mEq/L"; py "mEq/L"; py "mEq/L"]
      [py "15 - 45 mg/dl"; py "0.6 - 1.4 mg/dl"; py "2.4 - 7.0 mg/dl";
       py "135 - 155 mEq/L"; py "3.5 - 5.5 mEq/L"; py "98 - 107 mEq/L"]
  else if str_eqb report_name TFT then
    (* the micro prefix of the source is U+03BC, code point 956 *)
    frame
      [py "T3 (Triiodothyronine)"; py "T4 (Thyroxine)"; py "TSH"]
      (replicate 3 (py ""))
      [py "ng/ml"; 956 :: py "g/dl"; 956 :: py "IU/ml"]
      [py "0.8 - 2.0 ng/ml"; py "4.8 - 12.7 " ++ 956 :: py "g/dl";
       py "0.27 - 4.2 " ++ 956 :: py "IU/ml"]
  else
    frame
      [py "Test 1"; py "Test 2"; py "Test 3"]
      [py ""; py ""; py ""]
      [py "unit 1"; py "unit 2"; py "unit 3"]
      [py "normal 1"; py "normal 2"; py "normal 3"].

(** ** Files and the report pipeline *)

(** What the program sees of the operating system: the clock, already
    formatted as [%Y%m%d_%H%M%S], and whether a path can be written or
    removed. *)
Record OS := {
  timestamp : pystr;
  writable : pystr -> bool;
  removable : pystr -> bool
}.

Inductive file :=
  | PdfFile (document : list Op)
  | OtherFile.

Section Pipeline.
Context `{PyFloat}.

(** [pdf.output(filename)]: the document is closed and its pages are
    encoded, which fails on any text beyond Latin-1; writing the file is the
    caller's step below. *)
Definition output : M (list Op) :=
  close;;
  pages ← get ops;
  if encodable pages then mret pages else raise UnicodeEncodeError.

(** [f"{patient_info['patient_name'].replace(' ', '_')}_{now}.pdf"] *)
Definition report_filename (os : OS) (patient_info : PatientInfo) : pystr :=
  replace 32 95 (patient_name patient_info) ++ py "_" ++ timestamp os
  ++ py ".pdf".

Definition create_pdf_report (os : OS) (patient_info : PatientInfo)
    (report_data : gmap (list N) (list Row)) (selected_reports : list pystr)
    (logo : option pystr) (fs : gmap (list N) file)
    : res pystr * gmap (list N) file :=
  let draw : M (list Op) :=
    add_page;;
    add_patient_info patient_info;;
    for_each selected_reports (fun report_name =>
      (if str_eqb report_name CBC then
         generate_cbc_report patient_info report_data
       else if str_eqb report_name LFT then
         generate_lft_report patient_info report_data
       else mret tt);;
      if negb (bool_decide (Some report_name = last selected_reports)) then
        add_page;;
        add_patient_info patient_info
      else mret tt);;
    output in
  let filename := report_filename os patient_info in
  match draw (LabReportPDF logo) with
  | (Raise e, _) => (Raise e, fs)
  | (Ok document, _) =>
      if writable os filename
      then (Ok filename, <[filename := PdfFile document]> fs)
      else (Raise (OSError filename), fs)
  end.

(** What one click on "Generate PDF Report" shows in the page: the success
    note, the download link, and the two boxes the handler puts up with
    [st.error] when something was raised, the first with the error and the
    second with the advice to check the inputs. *)
Inductive shown :=
  | Success
  | DownloadLink (pdf_data : file) (download : pystr)
  | Error (e : exn)
  | CheckInputs.

Definition logo_path_const : pystr :=
  py "C:\Users\Admin\Pictures\Screenshots\Screenshot 2025-06-26 140637.png".

(** The body of the button handler in [main]: generate, offer the download,
    then clean the file up; a removal that fails is passed over.  Whatever is
    raised on the way ends in two error boxes: the error itself and the
    advice to check the inputs. *)
Definition generate_clicked (os : OS) (patient_data : PatientInfo)
    (report_data : gmap (list N) (list Row)) (selected_reports : list pystr)
    (fs : gmap (list N) file) : list shown * gmap (list N) file :=
  let logo_to_use :=
    if nonempty logo_path_const
       && negb (str_eqb logo_path_const (py "/path/to/your/logo.png"))
       && bool_decide (is_Some (fs !! logo_path_const))
    then Some logo_path_const else None in
  match create_pdf_report os patient_data report_data selected_reports
          logo_to_use fs with
  | (Raise e, fs) => ([Error e; CheckInputs], fs)
  | (Ok pdf_filename, fs) =>
      match fs !! pdf_filename with
      | None => ([Success; Error (OSError pdf_filename); CheckInputs], fs)
      | Some pdf_data =>
          let fs :=
            if bool_decide (is_Some (fs !! pdf_filename)) then
              if removable os pdf_filename then delete pdf_filename fs
              else fs
            else fs in
          ([Success; DownloadLink pdf_data pdf_filename], fs)
      end
  end.

End Pipeline.

(** ** Reading the drawing trace *)

(** The fonts the table uses, as [set_font('Arial', style, size)] selects
    them. *)
Definition arial (sty : pystr) (sz : Z) : Font :=
  {| family := py "helvetica"; style := sty; size := sz |}.
Definition regular9 : Font := arial (py "") 9.
Definition bold9 : Font := arial (py "B") 9.

(** A style is bold when it carries the letter [B]. *)
Definition is_bold (f : Font) : bool := bool_decide (66 ∈ style f).

(** What the document body holds: the drawing calls made outside the
    header and footer hooks. *)
Definition is_body (o : Op) : bool :=
  match o with
  | OCell Body _ _ _ _ _ _ _ => true
  | OLine Body _ _ => true
  | _ => false
  end.
Definition body (l : list Op) : list Op := List.filter is_body l.

(** The text [add_test_table] puts in the Result cell. *)
Definition result_text (row : Row) : pystr :=
  if notna (Result row) then str (Result row) else [].

(** The four cells of one table row, the Result cell in font [f]. *)
Definition table_row_cells (row : Row) (f : Font) : list Op :=
  [OCell Body 60 5 (str (Test row)) regular9 false (py "L") false;
   OCell Body 30 5 (result_text row) f false (py "C") false;
   OCell Body 25 5 (str (Units row)) regular9 false (py "C") false;
   OCell Body 75 5 (str (Normal_Values row)) regular9 false (py "C") false].

(** The heading cell of a titled table. *)
Definition section_title_cells (section_title : option pystr) : list Op :=
  match section_title with
  | Some title =>
      if nonempty title
      then [OCell Body 0 6 (upper title) (arial (py "B") 10) false (py "L") false]
      else []
  | None => []
  end.

(** The titles of the report sections a document holds: [add_report_title]
    is the one place that draws in 14 points. *)
Definition report_titles (document : list Op) : list pystr :=
  omap (fun o =>
          match o with
          | OCell Body _ _ txt f _ _ _ =>
              if (size f =? 14)%Z then Some txt else None
          | _ => None
          end) document.

(** A Result that is missing, empty or whitespace only. *)
Definition blank_result (row : Row) : Prop :=
  match Result row with
  | VStr t => Forall (fun c => isspace c = true) t
  | _ => True
  end.

Section ResultFont.
Context `{PyFloat}.

(** The test [add_test_table] makes before it switches to bold: there is
    text to show, it parses, both bounds were read, all three values are
    truthy, and the value lies below the lower or above the upper bound. *)
Definition out_of_range (row : Row) : bool :=
  nonempty (result_text row) && nonempty (strip (result_text row))
  && match float (result_text row), parse_range (Normal_Values row) with
     | Some r, (Some lo, Some hi) =>
         ftruth r && ftruth lo && ftruth hi && (flt r lo || flt hi r)
     | _, _ => false
     end.

Definition result_font (row : Row) : Font :=
  if out_of_range row then bold9 else regular9.

End ResultFont.

(** The pen: the selected font, the underline flag, and whether
    [unifontsubset] is there. *)
Definition pen (s : PDF) : Font * bool * option bool :=
  (font s, underline s, unifontsubset s).

(** [runs m p p' new]: from any body-level state with pen [p], [m] returns
    normally, leaves pen [p'] and adds exactly [new] to the body. *)
Definition runs (m : M unit) (p p' : Font * bool * option bool)
    (new : list Op) : Prop :=
  forall s, layer s = Body -> pen s = p ->
    exists s', m s = (Ok tt, s') /\ layer s' = Body /\ pen s' = p'
               /\ body (ops s') = body (ops s) ++ new.

(** The fixed part of a template: name, unit and range of each row. *)
Definition entry (t u n : string) : value * value * value :=
  (VStr (py t), VStr (py u), VStr (py n)).

Definition fixed_columns (table : list Row) : list (value * value * value) :=
  map (fun row => (Test row, Units row, Normal_Values row)) table.

(** ** What the parts of a report draw *)

(** The cells of the document body: the drawing trace without the rules and
    without what the header and footer hooks put on the page. *)
Definition is_body_cell (o : Op) : bool :=
  match o with
  | OCell Body _ _ _ _ _ _ _ => true
  | _ => false
  end.
Definition cells (l : list Op) : list Op := List.filter is_body_cell l.

(** The object as the program's own methods find it: at body level, with
    some font selected. *)
Definition ready (s : PDF) : Prop :=
  layer s = Body /\ nonempty (family (font s)) = true.

(** [draws m new]: from any ready state [m] returns normally, the state is
    ready again, and [new] are the cells [m] has added to the body. *)
Definition draws {A} (m : M A) (new : list Op) : Prop :=
  forall s, ready s ->
    exists a s', m s = (Ok a, s') /\ ready s'
                 /\ cells (ops s') = cells (ops s) ++ new.

(** The same with the pen on entry and on exit. *)
Definition draws_with {A} (m : M A) (p p' : Font * bool * option bool)
    (new : list Op)
    : Prop :=
  forall s, layer s = Body -> pen s = p ->
    exists a s', m s = (Ok a, s') /\ layer s' = Body /\ pen s' = p'
                 /\ cells (ops s') = cells (ops s) ++ new.

(** Everything on the pages that is not a cell of the body can be encoded:
    the footer note is all the hooks ever write. *)
Definition hooks_ok (l : list Op) : bool :=
  forallb (fun o => is_body_cell o || text_ok o) l.

(** [neat m]: run at body level on pages whose hooks can be encoded, [m]
    leaves such pages, at body level, whether it returns or raises. *)
Definition neat {A} (m : M A) : Prop :=
  forall s, layer s = Body -> hooks_ok (ops s) = true ->
    layer (m s).2 = Body /\ hooks_ok (ops (m s).2) = true.

(** The heading [add_report_title] draws: the title line and the four column
    headings on a filled background. *)
Definition title_cells (title : pystr) : list Op :=
  [OCell Body 0 10 (upper title) (arial (py "B") 14) false (py "C") false;
   OCell Body 60 8 (py "TEST") bold9 false (py "L") true;
   OCell Body 30 8 (py "RESULT") bold9 false (py "C") true;
   OCell Body 25 8 (py "UNITS") bold9 false (py "C") true;
   OCell Body 75 8 (py "NORMAL VALUES") bold9 false (py "C") true].

(** One entry of the patient block. *)
Definition field_cells (label : string) (v : pystr) : list Op :=
  [OCell Body 30 5 (py label) bold9 false (py "") false;
   OCell Body 5 5 (py ":") bold9 false (py "") false;
   OCell Body 50 5 v bold9 false (py "") false].
Arguments field_cells label%_string v.

Definition patient_cells (patient_info : PatientInfo) : list Op :=
  field_cells "LAB NO." (lab_no patient_info)
  ++ field_cells "REG DATE" (reg_date patient_info)
  ++ field_cells "PATIENT NAME" (patient_name patient_info)
  ++ field_cells "SAMPLE DATE" (sample_date patient_info)
  ++ field_cells "REF. BY DR." (ref_by patient_info)
  ++ field_cells "REPORT DATE" (report_date patient_info)
  ++ field_cells "SAMPLE COLL. AT" (sample_collection patient_info)
  ++ field_cells "SEX / AGE"
       (sex patient_info ++ py " / " ++ str_of_N (age patient_info)
        ++ py " Years").

(** The closing note of a panel, in italic 8 pt. *)
Definition note_cell (txt : pystr) : Op :=
  OCell Body 0 5 txt (arial (py "I") 8) false (py "") false.

Section ReportCells.
Context `{PyFloat}.

(** The rows of a table as drawn, each Result in the font the range test
    gives it. *)
Definition rows_cells (data : list Row) : list Op :=
  flat_map (fun row => table_row_cells row (result_font row)) data.

(** One section of a panel: nothing when no row has a result, else the
    heading and the rows that have one. *)
Definition section_cells (subset : list Row) (section_title : option pystr)
    : list Op :=
  match List.filter has_result subset with
  | [] => []
  | rows => section_title_cells section_title ++ rows_cells rows
  end.

Definition cbc_cells (data : list Row) : list Op :=
  title_cells (py "COMPLETE BLOOD COUNT(CBC)")
  ++ section_cells
       (select_tests [py "Haemoglobin"; py "RBC Count"; py "PCV"] data) None
  ++ section_cells
       (select_tests [py "MCV"; py "MCH"; py "MCHC"; py "RDW"] data)
       (Some (py "RBC INDICES"))
  ++ section_cells
       (select_tests [py "Total WBC Count"; py "Neutrophils"; py "Lymphocytes";
                      py "Eosinophils"; py "Monocytes"; py "Basophils"] data)
       (Some (py "TOTAL WBC COUNT"))
  ++ section_cells
       (select_tests [py "Platelet Count"; py "Platelets on Smear"] data)
       (Some (py "PLATELETS"))
  ++ section_cells
       (select_tests [py "RBC Morphology"; py "WBCs on PS"; py "RDWSD";
                      py "RDWCV"; py "MPV"; py "P-LCR"] data)
       (Some (py "PERIPHERAL BLOOD SMEAR"))
  ++ [note_cell
        (py "Test done on Nihon Kohden MEK- 6420K fully automated cell counter.")].

Definition lft_cells (data : list Row) : list Op :=
  title_cells (py "Liver Function Test (LFT)")
  ++ section_cells
       (select_tests [py "Bilirubin Total"; py "Bilirubin Direct";
                      py "Bilirubin Indirect"; py "S.G.O.T."; py "S.G.P.T.";
                      py "Alkaline Phosphatase"; py "Total Proteins";
                      py "Albumin"; py "Globulin"; py "A / G Ratio";
                      py "G.G.T.P."] data) None
  ++ [note_cell (py "Test Done on semi automated analyser Micro Lab RX-50.")].

(** What one selected name contributes to the document. *)
Definition panel_cells (report_data : gmap (list N) (list Row))
    (report_name : pystr) : list Op :=
  if str_eqb report_name CBC then
    match report_data !! CBC with Some data => cbc_cells data | None => [] end
  else if str_eqb report_name LFT then
    match report_data !! LFT with Some data => lft_cells data | None => [] end
  else [].

(** The cells of a whole report: the patient block, then panel after panel,
    with the patient block again after every name that is not the last of
    the selection. *)
Definition document_cells (patient_info : PatientInfo)
    (report_data : gmap (list N) (list Row)) (selected_reports : list pystr)
    : list Op :=
  patient_cells patient_info
  ++ flat_map (fun report_name =>
                 panel_cells report_data report_name
                 ++ if bool_decide (Some report_name = last selected_reports)
                    then [] else patient_cells patient_info)
       selected_reports.

End ReportCells.

(** The selection can be drawn: the blood count and the liver panel, where
    selected, have their table in [report_data]. *)
Definition has_data (report_data : gmap (list N) (list Row))
    (selected_reports : list pystr) : Prop :=
  forall name, name ∈ selected_reports -> name = CBC \/ name = LFT ->
               is_Some (report_data !! name).

(** The patient blocks of a document, counted by their first label. *)
Definition is_patient_block_start (o : Op) : bool :=
  match o with
  | OCell Body w _ txt _ _ align _ =>
      PrimFloat.eqb w 30 && str_eqb align (py "")
      && str_eqb txt (py "LAB NO.")
  | _ => false
  end.
Definition patient_blocks (document : list Op) : nat :=
  length (List.filter is_patient_block_start document).

(** The selected names that get a section of their own, with its title. *)
Definition section_title_of (report_name : pystr) : list pystr :=
  if str_eqb report_name CBC then [py "COMPLETE BLOOD COUNT(CBC)"]
  else if str_eqb report_name LFT then [py "LIVER FUNCTION TEST (LFT)"]
  else [].

(** The same object with another logo path. *)
Definition with_logo (l : option pystr) (s : PDF) : PDF :=
  {| page := page s; y := y s; h := h s; t_margin := t_margin s;
     auto_page_break := auto_page_break s;
     page_break_trigger := page_break_trigger s; font := font s;
     underline := underline s;
     unifontsubset := unifontsubset s; layer := layer s; ops := ops s;
     logo_path := l; is_first_page := is_first_page s |}.

(** [logo_blind m]: the logo path has no say in what [m] returns or does,
    and [m] passes it on unchanged. *)
Definition logo_blind {A} (m : M A) : Prop :=
  forall l s, m (with_logo l s) = ((m s).1, with_logo l (m s).2).

(** A result entered in the data editor. *)
Definition with_result (v : value) (row : Row) : Row :=
  {| Test := Test row; Result := v; Units := Units row;
     Normal_Values := Normal_Values row |}.

(** ** Sample inputs *)

Definition sample_patient : PatientInfo :=
  {| lab_no := py "2"; patient_name := py "MR. A KUMAR";
     ref_by := py "DR. B RAO"; sample_collection := py "CRYSTAL LAB";
     reg_date := py "26-Jun-2025 02:06 PM";
     sample_date := py "26-Jun-2025 02:06 PM";
     report_date := py "26-Jun-2025 02:06 PM";
     sex := py "Male"; age := 23 |}.

Definition sample_os : OS :=
  {| timestamp := py "20250626_140637";
     writable := fun _ => true; removable := fun _ => true |}.

(** A system that refuses to remove files, as when the file is still held
    open elsewhere. *)
Definition locked_os : OS :=
  {| timestamp := py "20250626_140637";
     writable := fun _ => true; removable := fun _ => false |}.

(** The object [create_pdf_report] draws on: a fresh [LabReportPDF] after
    its first [add_page]. *)
Definition first_page : PDF := (add_page (LabReportPDF None)).2.

(** The S.G.O.T. row of the liver panel with a result of 50 entered. *)
Definition sgot_50 : Row :=
  {| Test := VStr (py "S.G.O.T."); Result := VStr (py "50");
     Units := VStr (py "U/L"); Normal_Values := VStr (py "0 - 46 U/L") |}.

(** The PCV row of the blood count with a result of 70 entered. *)
Definition pcv_70 : Row :=
  {| Test := VStr (py "PCV"); Result := VStr (py "70");
     Units := VStr (py "%"); Normal_Values := VStr (py "35 - 60 %") |}.

(** The PCV row with a result on the lower bound of its range, and on the
    upper bound. *)
Definition pcv_35 : Row :=
  {| Test := VStr (py "PCV"); Result := VStr (py "35");
     Units := VStr (py "%"); Normal_Values := VStr (py "35 - 60 %") |}.

Definition pcv_60 : Row :=
  {| Test := VStr (py "PCV"); Result := VStr (py "60");
     Units := VStr (py "%"); Normal_Values := VStr (py "35 - 60 %") |}.

(** Rows whose range gives no upper bound: no hyphen, and no blank after the
    hyphen. *)
Definition smear_adequate : Row :=
  {| Test := VStr (py "Platelets on Smear"); Result := VStr (py "5");
     Units := VStr (py ""); Normal_Values := VStr (py "Adequate") |}.

Definition tight_range : Row :=
  {| Test := VStr (py "PCV"); Result := VStr (py "99");
     Units := VStr (py "%"); Normal_Values := VStr (py "5-10") |}.

(** A row whose range was left empty in the data editor. *)
Definition no_range : Row :=
  {| Test := VStr (py "PCV"); Result := VStr (py "99");
     Units := VStr (py "%"); Normal_Values := VNone |}.

(** A row whose range text has its bounds the wrong way round. *)
Definition inverted_60 : Row :=
  {| Test := VStr (py "PCV"); Result := VStr (py "60");
     Units := VStr (py "%"); Normal_Values := VStr (py "60 - 35 %") |}.

(** The MCV row with only blanks typed in. *)
Definition mcv_blank : Row :=
  {| Test := VStr (py "MCV"); Result := VStr (py "  ");
     Units := VStr (py "fl"); Normal_Values := VStr (py "80 - 99 fl") |}.

Definition sample_data : gmap (list N) (list Row) :=
  <[CBC := [pcv_70; mcv_blank]]> (<[LFT := [sgot_50]]> ∅).

(** The object after the patient block of the first page. *)
Definition block_drawn : PDF :=
  (add_patient_info sample_patient first_page).2.

(** A patient whose name is written in Devanagari. *)
Definition patient_in_hindi : PatientInfo :=
  {| lab_no := py "3"; patient_name := [2352; 2366; 2350]%N;
     ref_by := py "DR. B RAO"; sample_collection := py "CRYSTAL LAB";
     reg_date := py "26-Jun-2025 02:06 PM";
     sample_date := py "26-Jun-2025 02:06 PM";
     report_date := py "26-Jun-2025 02:06 PM";
     sex := py "Male"; age := 40 |}.

(** A patient whose name holds a path separator. *)
Definition patient_with_slash : PatientInfo :=
  {| lab_no := py "4"; patient_name := py "A/B";
     ref_by := py "DR. B RAO"; sample_collection := py "CRYSTAL LAB";
     reg_date := py "26-Jun-2025 02:06 PM";
     sample_date := py "26-Jun-2025 02:06 PM";
     report_date := py "26-Jun-2025 02:06 PM";
     sex := py "Female"; age := 31 |}.

(** A disk that holds one file of the user's. *)
Definition sample_disk : gmap (list N) file :=
  {[ py "notes.txt" := OtherFile ]}.

(** The Eosinophils row of the blood-count template. *)
Definition eosinophils : Row :=
  {| Test := VStr (py "Eosinophils"); Result := VStr (py "");
     Units := VStr (py "%"); Normal_Values := VStr (py "00 - 06 %") |}.

(** * Properties *)

(** ** The decimal floats *)

Lemma Dec_lt_irrefl a : Dec.lt a a = false.
Proof.
  destruct a as [q|n|]; simpl; [|by destruct n|done].
  unfold Qltb. apply negb_false_iff, Qle_bool_iff, Qle_refl.
Qed.

#[export] Instance DecFloat : PyFloat := {|
  pyfloat := Dec.dec;
  float := Dec.parse;
  flt := Dec.lt;
  ftruth := Dec.truth;
  flt_irrefl := Dec_lt_irrefl
|}.

Example float_50 : float (py "50") = Some (Dec.Fin 50).
Proof. reflexivity. Qed.
Example float_padded : float (py " 2.30 ") = Some (Dec.Fin (Qmake 23 10)).
Proof. reflexivity. Qed.
Example float_exp : float (py "-1.5e2") = Some (Dec.Fin (Qmake (-150) 1)).
Proof. reflexivity. Qed.
Example float_comma : float (py "10,000") = None.
Proof. reflexivity. Qed.
Example float_empty : float (py "") = None.
Proof. reflexivity. Qed.
Example split_range :
  split 45 (py "35 - 60 %") = [py "35 "; py " 60 %"].
Proof. reflexivity. Qed.


(** ** The monad *)

Lemma bind_ok {A B} (m : M A) (f : A -> M B) s a s' :
  m s = (Ok a, s') -> (m ≫= f) s = f a s'.
Proof. unfold mbind, M_bind. by intros ->. Qed.

Lemma bind_raise {A B} (m : M A) (f : A -> M B) s e s' :
  m s = (Raise e, s') -> (m ≫= f) s = (Raise e, s').
Proof. unfold mbind, M_bind. by intros ->. Qed.

Lemma try_ok {A} (m handler : M A) s a s' :
  m s = (Ok a, s') -> try_except m handler s = (Ok a, s').
Proof. unfold try_except. by intros ->. Qed.

Lemma try_raise {A} (m handler : M A) s e s' :
  m s = (Raise e, s') -> try_except m handler s = handler s'.
Proof. unfold try_except. by intros ->. Qed.

Lemma body_app l1 l2 : body (l1 ++ l2) = body l1 ++ body l2.
Proof. apply List.filter_app. Qed.

Lemma runs_ret p : runs (mret tt) p p [].
Proof. intros s Hl Hp. exists s. by rewrite app_nil_r. Qed.

Lemma runs_seq m k p p1 p2 n1 n2 :
  runs m p p1 n1 -> runs k p1 p2 n2 -> runs (m ;; k) p p2 (n1 ++ n2).
Proof.
  intros Hm Hk s Hl Hp.
  destruct (Hm s Hl Hp) as (s1 & E1 & Hl1 & Hp1 & Hb1).
  destruct (Hk s1 Hl1 Hp1) as (s2 & E2 & Hl2 & Hp2 & Hb2).
  exists s2. rewrite (bind_ok _ _ _ _ _ E1), E2, Hb2, Hb1, app_assoc. done.
Qed.

(** ** The library calls *)

Lemma set_font_arial sty sz s :
  sty ∈ [py ""; py "B"; py "I"] -> sz ≠ 0%Z ->
  set_font (py "Arial") sty sz s
  = (Ok tt, select_font (arial sty sz) false s).
Proof.
  intros Hs Hz. unfold set_font.
  assert ((sz =? 0)%Z = false) as -> by by apply Z.eqb_neq.
  repeat (apply elem_of_cons in Hs as [-> | Hs]); [done..|].
  by apply elem_of_nil in Hs.
Qed.

Lemma runs_set_font sty sz p :
  sty ∈ [py ""; py "B"; py "I"] -> sz ≠ 0%Z ->
  runs (set_font (py "Arial") sty sz) p (arial sty sz, false, Some false) [].
Proof.
  intros Hs Hz s Hl Hp. eexists. split; [by apply set_font_arial|].
  by rewrite app_nil_r.
Qed.

(** The blank style names no font: the call raises, and only the underline
    flag has been cleared by then. *)
Lemma set_font_blank s :
  set_font (py "Arial") (py "    ") 9 s
  = (Raise (UndefinedFont (py "helvetica    ")),
     set_font_field (font s) false s).
Proof. reflexivity. Qed.

Lemma runs_ln hh p : runs (ln hh) p p [].
Proof. intros s Hl Hp. eexists. split; [reflexivity|]. by rewrite app_nil_r. Qed.

(** A page break leaves the body alone, and the font too when one was
    selected. *)
Lemma add_page_ok s :
  exists s', add_page s = (Ok tt, s') /\ page s' = S (page s)
    /\ layer s' = Body /\ h s' = h s
    /\ y s' = (t_margin s + 25 + 5)%float
    /\ (nonempty (family (font s)) = true ->
        pen s' = (font s, underline s, Some false))
    /\ body (ops s') = body (ops s).
Proof.
  unfold add_page, add_page_with, pen.
  cbv [mbind M_bind get modify in_layer].
  destruct (0 <? page s)%nat, (nonempty (family (font s)));
    (eexists; split; [reflexivity|]); simpl;
    rewrite ?body_app; simpl; rewrite ?app_nil_r; done.
Qed.

Lemma runs_add_page f u b :
  nonempty (family f) = true -> runs add_page (f, u, b) (f, u, Some false) [].
Proof.
  intros Hf s Hl Hp. destruct (add_page_ok s) as (s' & E & _ & Hl' & _ & _ & Hp' & Hb).
  exists s'. rewrite app_nil_r. split_and!; try done.
  injection Hp as Hfont Hu _. rewrite Hp'; [by rewrite Hfont, Hu|by rewrite Hfont].
Qed.

Lemma runs_cell w hh txt nl align fill f u :
  nonempty (family f) = true ->
  runs (cell w hh txt nl align fill) (f, u, Some false) (f, u, Some false)
       [OCell Body w hh txt f u align fill].
Proof.
  intros Hf s Hl Hp. unfold cell, cell_with.
  rewrite (bind_ok _ _ s s s) by reflexivity.
  assert (unifontsubset s = Some false) as -> by by injection Hp.
  set (c := _ && _ && _).
  assert (exists s1, (if c then add_page_with header footer else mret tt) s = (Ok tt, s1)
          /\ layer s1 = Body /\ pen s1 = (f, u, Some false)
          /\ body (ops s1) = body (ops s))
    as (s1 & E1 & Hl1 & Hp1 & Hb1).
  { destruct c.
    - destruct (runs_add_page f u (Some false) Hf s Hl Hp) as (s1 & ? & ? & ? & Hb).
      exists s1. by rewrite app_nil_r in Hb.
    - by exists s. }
  rewrite (bind_ok _ _ _ _ _ E1).
  unfold pen in Hp1. injection Hp1 as Hfont Hu Hflag.
  eexists. split; [reflexivity|].
  unfold pen.
  destruct nl; simpl; rewrite body_app, Hb1, Hl1, Hfont, Hu, Hflag; done.
Qed.

(** In the footer [cell] is its drawing part: no page break, and the font
    was selected just before. *)
Lemma cell_in_footer w hh txt nl align fill s :
  layer s = Footer -> is_Some (unifontsubset s) ->
  cell w hh txt nl align fill s = put_cell w hh txt nl align fill s.
Proof.
  intros Hl [b Hb]. unfold cell, cell_with.
  rewrite (bind_ok _ _ s s s) by reflexivity.
  rewrite Hb, Hl. simpl. by rewrite andb_false_r.
Qed.

(** ** One table row *)

Section TableFacts.
Context `{PyFloat}.

Lemma regular9_family : nonempty (family regular9) = true.
Proof. reflexivity. Qed.

Lemma runs_plain_result t p :
  runs (set_font (py "Arial") (py "") 9;;
        cell 30 5 t false (py "C") false;;
        set_font (py "Arial") (py "") 9)
       p (regular9, false, Some false)
       [OCell Body 30 5 t regular9 false (py "C") false].
Proof.
  apply (runs_seq _ _ p (regular9, false, Some false) _ [] [_]);
    [apply runs_set_font; [set_solver|done]|].
  apply (runs_seq _ _ _ (regular9, false, Some false) _ [_] []);
    [by apply runs_cell|apply runs_set_font; [set_solver|done]].
Qed.

Lemma runs_bold_result t p :
  runs (bold_result t) p (regular9, false, Some false)
       [OCell Body 30 5 t bold9 false (py "C") false].
Proof.
  apply (runs_seq _ _ p (bold9, false, Some false) _ [] [_]);
    [apply runs_set_font; [set_solver|done]|].
  apply (runs_seq _ _ _ (bold9, false, Some false) _ [_] []);
    [by apply runs_cell|apply runs_set_font; [set_solver|done]].
Qed.

Lemma regular_result_raises t s :
  regular_result t s
  = (Raise (UndefinedFont (py "helvetica    ")), set_font_field (font s) false s).
Proof. unfold regular_result. apply bind_raise, set_font_blank. Qed.

(** The guarded block around the Result cell: whichever branch runs, one
    cell comes out, bold exactly under the test of [out_of_range]. *)
Lemma runs_result_block t lo hi :
  runs (try_except
          (match float t with
           | None => raise ValueError
           | Some r =>
               match lo, hi with
               | Some lo, Some hi =>
                   if ftruth r && ftruth lo && ftruth hi then
                     if flt r lo then bold_result t
                     else if flt hi r then bold_result t
                     else regular_result t
                   else regular_result t
               | _, _ => regular_result t
               end
           end)
          (set_font (py "Arial") (py "") 9;;
           cell 30 5 t false (py "C") false;;
           set_font (py "Arial") (py "") 9))
       (regular9, false, Some false) (regular9, false, Some false)
       [OCell Body 30 5 t
          (if match float t, lo, hi with
              | Some r, Some lo, Some hi =>
                  ftruth r && ftruth lo && ftruth hi && (flt r lo || flt hi r)
              | _, _, _ => false
              end then bold9 else regular9)
          false (py "C") false].
Proof.
  intros s Hl Hp.
  pose proof (runs_plain_result t (regular9, false, Some false) s Hl Hp)
    as Hplain.
  pose proof (runs_plain_result t (regular9, false, Some false)
                (set_font_field (font s) false s) Hl) as Hplain'.
  assert (pen (set_font_field (font s) false s)
          = (regular9, false, Some false)) as Hp'
    by (unfold pen in *; injection Hp as Hf _ Hfl; simpl; by rewrite Hf, Hfl).
  specialize (Hplain' Hp').
  pose proof (runs_bold_result t (regular9, false, Some false) s Hl Hp)
    as Hbold.
  destruct (float t) as [r|]; [|exact Hplain].
  destruct lo as [lo|], hi as [hi|];
    try (erewrite try_raise by apply regular_result_raises; exact Hplain').
  destruct (ftruth r), (ftruth lo), (ftruth hi); simpl;
    try (erewrite try_raise by apply regular_result_raises; exact Hplain').
  destruct (flt r lo); simpl.
  { destruct Hbold as (s' & E & ?). exists s'. by erewrite try_ok. }
  destruct (flt hi r); simpl.
  { destruct Hbold as (s' & E & ?). exists s'. by erewrite try_ok. }
  erewrite try_raise by apply regular_result_raises. exact Hplain'.
Qed.

Lemma runs_render_row row :
  runs (render_row row) (regular9, false, Some false)
       (regular9, false, Some false)
       (table_row_cells row (result_font row)).
Proof.
  unfold render_row, table_row_cells, result_font, out_of_range.
  fold (result_text row).
  destruct (parse_range (Normal_Values row)) as [lo hi].
  pose proof (runs_result_block (result_text row) lo hi) as Hblock.
  apply (runs_seq _ _ _ (regular9, false, Some false) _ [_] [_; _; _]);
    [by apply runs_cell|].
  apply (runs_seq _ _ _ (regular9, false, Some false) _ [_] [_; _]).
  2: { apply (runs_seq _ _ _ (regular9, false, Some false) _ [_] [_]); by apply runs_cell. }
  destruct (nonempty (result_text row) && nonempty (strip (result_text row)));
    simpl; [|by apply runs_cell].
  destruct lo, hi; exact Hblock.
Qed.

Lemma runs_for_each {A} (xs : list A) (step : A -> M unit) p new :
  (forall x, runs (step x) p p (new x)) ->
  runs (for_each xs step) p p (flat_map new xs).
Proof.
  intros Hstep. induction xs as [|x xs IH]; simpl; [apply runs_ret|].
  by apply (runs_seq _ _ p p p).
Qed.

Lemma runs_section_title section_title p :
  exists p', runs (match section_title with
                   | Some title =>
                       if nonempty title then
                         set_font (py "Arial") (py "B") 10;;
                         cell 0 6 (upper title) true (py "L") false;;
                         ln 2
                       else mret tt
                   | None => mret tt
                   end) p p' (section_title_cells section_title).
Proof.
  destruct section_title as [title|]; simpl; [|exists p; apply runs_ret].
  destruct (nonempty title); [|exists p; apply runs_ret].
  exists (arial (py "B") 10, false, Some false).
  apply (runs_seq _ _ p (arial (py "B") 10, false, Some false) _ [] [_]);
    [apply runs_set_font; [set_solver|done]|].
  apply (runs_seq _ _ _ (arial (py "B") 10, false, Some false) _ [_] []);
    [by apply runs_cell|apply runs_ln].
Qed.

(** The whole table: the optional heading, then four cells per row. *)
Lemma runs_add_test_table data section_title p :
  runs (add_test_table data section_title) p (regular9, false, Some false)
       (section_title_cells section_title
        ++ flat_map (fun row => table_row_cells row (result_font row)) data).
Proof.
  unfold add_test_table.
  destruct (runs_section_title section_title p) as [p' Htitle].
  rewrite <- (app_nil_r (flat_map _ _)).
  apply (runs_seq _ _ p p'); [exact Htitle|].
  apply (runs_seq _ _ p' (regular9, false, Some false) _ [] (_ ++ []));
    [apply runs_set_font; [set_solver|done]|].
  apply (runs_seq _ _ _ (regular9, false, Some false)); [|apply runs_ln].
  apply runs_for_each, runs_render_row.
Qed.

(** C4. Bold type stays in the Result column: whatever the rows hold, the
    Test, Units and Normal Values cells of every row come out in the regular
    9-point font, only the Result cell has a font of its own, and the regular
    9-point font is the one selected when the table is done.  As this holds
    of every table, it holds of the table cut off after any of its rows. *)
Theorem bold_confined_to_result (data : list Row)
    (section_title : option pystr) (pdf : PDF) :
  layer pdf = Body ->
  exists pdf' (f : Row -> Font),
    add_test_table data section_title pdf = (Ok tt, pdf')
    /\ font pdf' = regular9
    /\ body (ops pdf')
       = body (ops pdf) ++ section_title_cells section_title
         ++ flat_map (fun row => table_row_cells row (f row)) data.
Proof.
  intros Hl.
  destruct (runs_add_test_table data section_title (pen pdf) pdf Hl eq_refl)
    as (pdf' & E & _ & Hp & Hb).
  exists pdf', result_font. unfold pen in Hp. by simplify_eq.
Qed.

(** C8. [add_test_table] returns normally on every table.  The Result text
    goes out as it is, and in the regular font whenever the result does not
    parse as a number or either bound could not be read off the range. *)
Theorem parse_failures_render_regular (data : list Row)
    (section_title : option pystr) (pdf : PDF) :
  layer pdf = Body ->
  exists pdf' (f : Row -> Font),
    add_test_table data section_title pdf = (Ok tt, pdf')
    /\ body (ops pdf')
       = body (ops pdf) ++ section_title_cells section_title
         ++ flat_map (fun row => table_row_cells row (f row)) data
    /\ forall row,
         float (result_text row) = None
         \/ (parse_range (Normal_Values row)).1 = None
         \/ (parse_range (Normal_Values row)).2 = None ->
         f row = regular9.
Proof.
  intros Hl.
  destruct (runs_add_test_table data section_title (pen pdf) pdf Hl eq_refl)
    as (pdf' & E & _ & _ & Hb).
  exists pdf', result_font. split_and!; [done..|].
  intros row Hfail. unfold result_font, out_of_range.
  destruct (parse_range (Normal_Values row)) as [lo hi]; simpl in Hfail.
  destruct (float (result_text row)) as [r|], lo as [lo|], hi as [hi|];
    simpl; rewrite ?andb_false_r; try done.
  by destruct Hfail as [? | [? | ?]].
Qed.

(** C9, amended. With a range whose upper bound is not below its lower
    bound, a result equal to either bound is drawn in the regular font. *)
Theorem bounds_are_inclusive (data : list Row)
    (section_title : option pystr) (pdf : PDF) :
  layer pdf = Body ->
  exists pdf' (f : Row -> Font),
    add_test_table data section_title pdf = (Ok tt, pdf')
    /\ body (ops pdf')
       = body (ops pdf) ++ section_title_cells section_title
         ++ flat_map (fun row => table_row_cells row (f row)) data
    /\ forall row r lo hi,
         float (result_text row) = Some r ->
         parse_range (Normal_Values row) = (Some lo, Some hi) ->
         flt hi lo = false ->
         r = lo \/ r = hi ->
         f row = regular9.
Proof.
  intros Hl.
  destruct (runs_add_test_table data section_title (pen pdf) pdf Hl eq_refl)
    as (pdf' & E & _ & _ & Hb).
  exists pdf', result_font. split_and!; [done..|].
  intros row r lo hi Hr Hrange Hle Heq. unfold result_font, out_of_range.
  rewrite Hr, Hrange.
  assert (flt r lo || flt hi r = false) as ->; [|by rewrite !andb_false_r].
  destruct Heq as [-> | ->]; by rewrite flt_irrefl, ?Hle.
Qed.

End TableFacts.

(** ** Page breaks *)

(** C5. [check_page_break] starts a new page and answers [True] exactly when
    the current position plus the requested height exceeds the page height
    less the 60 units kept for the footer, the sum, the difference and the
    comparison being those of binary64 floats as the code computes them;
    otherwise it answers [False] and the object is as it was. *)
Theorem check_page_break_decides (pdf : PDF) (height_needed : num) :
  (PrimFloat.ltb (h pdf - 60) (y pdf + height_needed) = true
   /\ exists pdf', check_page_break height_needed pdf = (Ok true, pdf')
                   /\ add_page pdf = (Ok tt, pdf')
                   /\ page pdf' = S (page pdf))
  \/ (PrimFloat.ltb (h pdf - 60) (y pdf + height_needed) = false
      /\ check_page_break height_needed pdf = (Ok false, pdf)).
Proof.
  unfold check_page_break, get_y.
  rewrite (bind_ok _ _ pdf (y pdf) pdf), (bind_ok _ _ pdf (h pdf) pdf)
    by reflexivity.
  destruct (PrimFloat.ltb (h pdf - 60) (y pdf + height_needed)) eqn:E.
  - left. split; [done|].
    destruct (add_page_ok pdf) as (pdf' & Ea & Hp & _).
    exists pdf'. by rewrite (bind_ok _ _ _ _ _ Ea).
  - by right.
Qed.

(** The sum is rounded as the interpreter rounds it: one unit down a page
    of height 61, a request of 2^-60 is lost in the sum and no page is
    started, although 1 + 2^-60 exceeds 1. *)
Example check_page_break_rounds (pdf : PDF) :
  y pdf = 1%float -> h pdf = 61%float ->
  check_page_break 0x1p-60 pdf = (Ok false, pdf).
Proof.
  intros Hy Hh. unfold check_page_break, get_y.
  rewrite (bind_ok _ _ pdf (y pdf) pdf), (bind_ok _ _ pdf (h pdf) pdf)
    by reflexivity.
  rewrite Hy, Hh. reflexivity.
Qed.

(** ** Templates *)

(** C3. Each of the four panels has its fixed rows (21, 11, 6 and 3), with
    the names, units and ranges below, and an empty Result throughout.  The
    table is a function of the name alone, so asking again gives it again. *)
Theorem templates_are_fixed :
  (fixed_columns (load_report_template CBC)
   = [entry "Haemoglobin" "g%" "Male: 14 - 16 g%, Female: 12 - 14 g%";
      entry "RBC Count" "million/cu.mm." "4.0 - 6.0 million/cu.mm";
      entry "PCV" "%" "35 - 60 %";
      entry "MCV" "fl" "80 - 99 fl";
      entry "MCH" "pg" "27 - 31 pg";
      entry "MCHC" "%" "32 - 37 %";
      entry "RDW" "fl" "9 - 17 fl";
      entry "Total WBC Count" "/cu.mm" "4000 - 10,000 /cu.mm";
      entry "Neutrophils" "%" "40 - 70 %";
      entry "Lymphocytes" "%" "20 - 45 %";
      entry "Eosinophils" "%" "00 - 06 %";
      entry "Monocytes" "%" "00 - 08 %";
      entry "Basophils" "%" "00 - 01 %";
      entry "Platelet Count" "lak/cu.mm" "150000 - 450000 /lak cu.mm";
      entry "Platelets on Smear" "" "Adequate On Smear";
      entry "RBC Morphology" "" "Normocytic, Normochromic";
      entry "WBCs on PS" "" "Normal";
      entry "RDWSD" "fl" "37 - 54 fl";
      entry "RDWCV" "%" "11 - 16 %";
      entry "MPV" "fl" "9 - 13 fl";
      entry "P-LCR" "%" "13 - 43 %"]
   /\ length (load_report_template CBC) = 21%nat)
  /\ (fixed_columns (load_report_template LFT)
      = [entry "Bilirubin Total" "mg/dl" "0.1 - 1.2 mg/dl";
         entry "Bilirubin Direct" "mg/dl" "0.1 - 0.4 mg/dl";
         entry "Bilirubin Indirect" "mg/dl" "0.1 - 0.7 mg/dl";
         entry "S.G.O.T." "U/L" "0 - 46 U/L";
         entry "S.G.P.T." "IU/L" "0 - 49 U/L";
         entry "Alkaline Phosphatase" "IU/L" "15 - 112 IU/L";
         entry "Total Proteins" "gm/dl" "6.0 - 8.3 gm/dl";
         entry "Albumin" "gm/dl" "3.2 - 5.0 gm/dl";
         entry "Globulin" "gm/dl" "2.0 - 3.5 gm/dl";
         entry "A / G Ratio" "" "1.0 - 2.3";
         entry "G.G.T.P." "IU/L" "25 - 43 IU/L"]
      /\ length (load_report_template LFT) = 11%nat)
  /\ (fixed_columns (load_report_template KFT)
      = [entry "Blood Urea" "mg/dl" "15 - 45 mg/dl";
         entry "Serum Creatinine" "mg/dl" "0.6 - 1.4 mg/dl";
         entry "Uric Acid" "mg/dl" "2.4 - 7.0 mg/dl";
         entry "Sodium" "mEq/L" "135 - 155 mEq/L";
         entry "Potassium" "mEq/L" "3.5 - 5.5 mEq/L";
         entry "Chloride" "mEq/L" "98 - 107 mEq/L"]
      /\ length (load_report_template KFT) = 6%nat)
  /\ (fixed_columns (load_report_template TFT)
      = [entry "T3 (Triiodothyronine)" "ng/ml" "0.8 - 2.0 ng/ml";
         (VStr (py "T4 (Thyroxine)"), VStr (956 :: py "g/dl"),
          VStr (py "4.8 - 12.7 " ++ 956 :: py "g/dl"));
         (VStr (py "TSH"), VStr (956 :: py "IU/ml"),
          VStr (py "0.27 - 4.2 " ++ 956 :: py "IU/ml"))]
      /\ length (load_report_template TFT) = 3%nat)
  /\ Forall (fun name =>
               Forall (fun row => Result row = VStr (py ""))
                      (load_report_template name))
            [CBC; LFT; KFT; TFT].
Proof. split_and!; try reflexivity. repeat constructor. Qed.

(** ** Rows without a result *)

Lemma lstrip_nil s : lstrip s = [] <-> Forall (fun c => isspace c = true) s.
Proof.
  induction s as [|c s IH]; simpl; [by split|].
  destruct (isspace c) eqn:E.
  - rewrite IH. split; [by constructor|by inversion 1].
  - split; [done|]. inversion 1; congruence.
Qed.

Lemma lstrip_suffix s : exists pre, s = pre ++ lstrip s
                                    /\ Forall (fun c => isspace c = true) pre.
Proof.
  induction s as [|c s (pre & E & Hpre)]; simpl; [by exists []|].
  destruct (isspace c) eqn:Ec.
  - exists (c :: pre). split; [by rewrite <- app_comm_cons, <- E|by constructor].
  - by exists [].
Qed.

(** [strip] leaves nothing exactly of the strings made of whitespace. *)
Lemma strip_nil s : strip s = [] <-> Forall (fun c => isspace c = true) s.
Proof.
  unfold strip, rstrip. split.
  - intros E. apply (f_equal (@rev N)) in E. rewrite rev_involutive in E.
    simpl in E. apply lstrip_nil in E.
    destruct (lstrip_suffix s) as (pre & Es & Hpre). rewrite Es.
    apply Forall_app. split; [done|].
    apply List.Forall_rev in E. by rewrite rev_involutive in E.
  - intros Hs. apply lstrip_nil in Hs. by rewrite Hs.
Qed.

Lemma has_result_false row : has_result row = false <-> blank_result row.
Proof.
  unfold has_result, blank_result, str_eqb.
  destruct (Result row) as [t| |]; simpl; [|done..].
  rewrite negb_false_iff, bool_decide_eq_true. apply strip_nil.
Qed.

Lemma select_drop_blank names data1 row data2 :
  has_result row = false ->
  List.filter has_result (select_tests names (data1 ++ row :: data2))
  = List.filter has_result (select_tests names (data1 ++ data2)).
Proof.
  intros Hrow. unfold select_tests.
  rewrite !List.filter_app. simpl.
  destruct (isin (Test row) names); simpl; by rewrite ?Hrow.
Qed.

Section Reports.
Context `{PyFloat}.

Lemma print_drop_blank names data1 row data2 title :
  has_result row = false ->
  print_if_has_result (select_tests names (data1 ++ row :: data2)) title
  = print_if_has_result (select_tests names (data1 ++ data2)) title.
Proof. intros Hrow. unfold print_if_has_result. by rewrite select_drop_blank. Qed.

End Reports.

(** ** The pipeline *)

Lemma bind_ext {A B} (m : M A) (f g : A -> M B) s :
  (forall a s', f a s' = g a s') -> (m ≫= f) s = (m ≫= g) s.
Proof.
  intros Hfg. unfold mbind, M_bind. destruct (m s) as [[a|e] s']; [apply Hfg|done].
Qed.

Lemma kft_is_no_generator : str_eqb KFT CBC = false /\ str_eqb KFT LFT = false.
Proof. split; vm_compute; reflexivity. Qed.

Lemma tft_is_no_generator : str_eqb TFT CBC = false /\ str_eqb TFT LFT = false.
Proof. split; vm_compute; reflexivity. Qed.

Section PipelineFacts.
Context `{PyFloat}.

(** C2, as the code has it. A selection of the kidney or the thyroid panel
    draws nothing of its own: the document is the one an empty selection
    gives, whatever results were entered. *)
Theorem kft_tft_draw_no_section (os : OS) (patient_info : PatientInfo)
    (report_data : gmap (list N) (list Row)) (logo : option pystr)
    (fs : gmap (list N) file) :
  create_pdf_report os patient_info report_data [KFT] logo fs
  = create_pdf_report os patient_info report_data [] logo fs
  /\ create_pdf_report os patient_info report_data [TFT] logo fs
     = create_pdf_report os patient_info report_data [] logo fs.
Proof.
  destruct kft_is_no_generator as [K1 K2], tft_is_no_generator as [T1 T2].
  unfold create_pdf_report. split.
  - erewrite bind_ext; [reflexivity|]. intros [] s1.
    apply bind_ext. intros [] s2. unfold for_each.
    rewrite K1, K2, (bool_decide_eq_true_2 _ (eq_refl : Some KFT = last [KFT])).
    reflexivity.
  - erewrite bind_ext; [reflexivity|]. intros [] s1.
    apply bind_ext. intros [] s2. unfold for_each.
    rewrite T1, T2, (bool_decide_eq_true_2 _ (eq_refl : Some TFT = last [TFT])).
    reflexivity.
Qed.

(** [create_pdf_report] either writes the document under the report's file
    name and returns that name, or raises and leaves the disk alone. *)
Lemma create_pdf_report_cases os patient_info report_data selected logo fs :
  (exists document,
     writable os (report_filename os patient_info) = true
     /\ create_pdf_report os patient_info report_data selected logo fs
        = (Ok (report_filename os patient_info),
           <[report_filename os patient_info := PdfFile document]> fs))
  \/ (exists e,
        create_pdf_report os patient_info report_data selected logo fs
        = (Raise e, fs)).
Proof.
  unfold create_pdf_report.
  match goal with |- context [match ?x with (_, _) => _ end] =>
    destruct x as [[document|e] pdf] end; [|right; by exists e].
  destruct (writable os (report_filename os patient_info)) eqn:E.
  - left. by exists document.
  - right. by eexists.
Qed.

(** C6, amended. After a click that ends in the download link, the report
    file is gone from the disk provided the system lets it be removed; the
    disk is then as before, less any older file of that name. *)
Theorem report_file_removed (os : OS) (patient_data : PatientInfo)
    (report_data : gmap (list N) (list Row)) (selected_reports : list pystr)
    (fs fs' : gmap (list N) file) (out : list shown) :
  generate_clicked os patient_data report_data selected_reports fs = (out, fs') ->
  Success ∈ out ->
  (forall e, Error e ∉ out) ->
  removable os (report_filename os patient_data) = true ->
  fs' !! report_filename os patient_data = None
  /\ fs' = delete (report_filename os patient_data) fs.
Proof.
  unfold generate_clicked. intros E _ Hno Hrm. revert E.
  match goal with |- context [create_pdf_report ?a ?b ?c ?d ?l ?f] =>
    destruct (create_pdf_report_cases a b c d l f)
      as [(document & _ & ->) | (e & ->)] end.
  - rewrite lookup_insert_eq, Hrm.
    rewrite bool_decide_eq_true_2 by by eexists.
    intros [= _ <-]. by rewrite lookup_delete_eq, delete_insert_eq.
  - intros [= <- _]. exfalso. apply (Hno e). set_solver.
Qed.

End PipelineFacts.

(** ** Sample runs *)

(** C1, where the code departs from it. The S.G.O.T. row with 50 entered:
    the result parses, the range reads as 0 to 46, 50 is above 46, and the
    Result cell still comes out in the regular font, because the lower bound
    0 counts as false in the test that guards the comparison. *)
Theorem sgot_above_range_not_bold :
  float (result_text sgot_50) = Some (Dec.Fin 50)
  /\ parse_range (Normal_Values sgot_50) = (Some (Dec.Fin 0), Some (Dec.Fin 46))
  /\ flt (Dec.Fin 46) (Dec.Fin 50) = true
  /\ add_test_table [sgot_50] None first_page
     = (Ok tt, (add_test_table [sgot_50] None first_page).2)
  /\ body (ops (add_test_table [sgot_50] None first_page).2)
     = table_row_cells sgot_50 regular9
  /\ is_bold regular9 = false.
Proof. split_and!; vm_compute; reflexivity. Qed.

(** The same table code does set a value above a non-zero range in bold. *)
Example pcv_above_range_bold :
  body (ops (add_test_table [pcv_70] None first_page).2)
  = table_row_cells pcv_70 bold9.
Proof. vm_compute. reflexivity. Qed.

(** C9 fails as stated: with the range text "60 - 35 %" the result 60 equals
    the lower bound read off it and is drawn in bold. *)
Lemma inverted_range_bound_is_bold :
  exists r lo hi,
    float (result_text inverted_60) = Some r
    /\ parse_range (Normal_Values inverted_60) = (Some lo, Some hi)
    /\ r = lo
    /\ add_test_table [inverted_60] None first_page
       = (Ok tt, (add_test_table [inverted_60] None first_page).2)
    /\ body (ops (add_test_table [inverted_60] None first_page).2)
       = table_row_cells inverted_60 bold9
    /\ is_bold bold9 = true.
Proof.
  exists (Dec.Fin 60), (Dec.Fin 60), (Dec.Fin 35).
  split_and!; vm_compute; reflexivity.
Qed.

(** C6 fails as stated: when the system refuses the removal, the click still
    ends in the download link and the report file stays on the disk. *)
Lemma locked_report_file_stays :
  exists pdf_data fs',
    generate_clicked locked_os sample_patient sample_data [CBC] ∅
    = ([Success; DownloadLink pdf_data (report_filename locked_os sample_patient)],
       fs')
    /\ fs' !! report_filename locked_os sample_patient = Some pdf_data.
Proof.
  eexists _, _. split; [vm_compute; reflexivity|]. vm_compute. reflexivity.
Qed.

(** ** The statements at work on the sample inputs *)

Lemma bold_confined_to_result_witness :
  layer first_page = Body
  /\ exists pdf' (f : Row -> Font),
       add_test_table [sgot_50; pcv_70] (Some (py "RBC INDICES")) first_page
       = (Ok tt, pdf')
       /\ font pdf' = regular9
       /\ body (ops pdf')
          = body (ops first_page)
            ++ section_title_cells (Some (py "RBC INDICES"))
            ++ flat_map (fun row => table_row_cells row (f row))
                 [sgot_50; pcv_70].
Proof.
  split; [reflexivity|].
  apply (bold_confined_to_result [sgot_50; pcv_70]). reflexivity.
Defined.

Lemma parse_failures_render_regular_witness :
  layer first_page = Body
  /\ exists pdf' (f : Row -> Font),
       add_test_table [mcv_blank; pcv_70] None first_page = (Ok tt, pdf')
       /\ body (ops pdf')
          = body (ops first_page) ++ section_title_cells None
            ++ flat_map (fun row => table_row_cells row (f row))
                 [mcv_blank; pcv_70]
       /\ forall row,
            float (result_text row) = None
            \/ (parse_range (Normal_Values row)).1 = None
            \/ (parse_range (Normal_Values row)).2 = None ->
            f row = regular9.
Proof.
  split; [reflexivity|].
  apply (parse_failures_render_regular [mcv_blank; pcv_70]). reflexivity.
Defined.

Lemma bounds_are_inclusive_witness :
  layer first_page = Body
  /\ float (result_text pcv_35) = Some (Dec.Fin 35)
  /\ float (result_text pcv_60) = Some (Dec.Fin 60)
  /\ parse_range (Normal_Values pcv_35) = (Some (Dec.Fin 35), Some (Dec.Fin 60))
  /\ parse_range (Normal_Values pcv_60) = (Some (Dec.Fin 35), Some (Dec.Fin 60))
  /\ flt (Dec.Fin 60) (Dec.Fin 35) = false
  /\ exists pdf',
       add_test_table [pcv_35; pcv_60] None first_page = (Ok tt, pdf')
       /\ body (ops pdf')
          = body (ops first_page)
            ++ table_row_cells pcv_35 regular9
            ++ table_row_cells pcv_60 regular9.
Proof.
  split; [reflexivity|]. do 5 (split; [reflexivity|]).
  destruct (bounds_are_inclusive [pcv_35; pcv_60] None first_page eq_refl)
    as (pdf' & f & E & Hb & Hf).
  exists pdf'. split; [exact E|]. rewrite Hb. cbn [flat_map].
  rewrite (Hf pcv_35 (Dec.Fin 35) (Dec.Fin 35) (Dec.Fin 60)
             eq_refl eq_refl eq_refl (or_introl eq_refl)).
  rewrite (Hf pcv_60 (Dec.Fin 60) (Dec.Fin 35) (Dec.Fin 60)
             eq_refl eq_refl eq_refl (or_intror eq_refl)).
  reflexivity.
Defined.

Lemma report_file_removed_witness :
  removable sample_os (report_filename sample_os sample_patient) = true
  /\ (generate_clicked sample_os sample_patient sample_data [CBC; LFT] ∅).2
     !! report_filename sample_os sample_patient = None.
Proof.
  split; [reflexivity|].
  refine (proj1 (report_file_removed sample_os sample_patient sample_data
                   [CBC; LFT] ∅ _
                   (generate_clicked sample_os sample_patient sample_data
                      [CBC; LFT] ∅).1 _ _ _ _)).
  - by destruct (generate_clicked _ _ _ _ _).
  - vm_compute. left.
  - intros e He. vm_compute in He.
    repeat (apply elem_of_cons in He as [He | He]; [discriminate He|]).
    by apply elem_of_nil in He.
  - reflexivity.
Defined.

(** * Further properties of the code *)

(** ** When a result is set in bold *)

Lemma strip_nonempty t : nonempty (strip t) = true -> nonempty t = true.
Proof. by destruct t. Qed.

Lemma split_no_sep sep s : sep ∉ s -> split sep s = [s].
Proof.
  induction s as [|c s IH]; simpl; [done|]. intros Hs.
  apply not_elem_of_cons in Hs as [Hc Hs].
  destruct (N.eqb_spec c sep) as [->|_]; [done|]. by rewrite IH.
Qed.

Section BoldFacts.
Context `{PyFloat}.

Lemma table_trace data section_title pdf :
  layer pdf = Body ->
  exists pdf',
    add_test_table data section_title pdf = (Ok tt, pdf')
    /\ body (ops pdf')
       = body (ops pdf) ++ section_title_cells section_title
         ++ flat_map (fun row => table_row_cells row (result_font row)) data.
Proof.
  intros Hl.
  destruct (runs_add_test_table data section_title (pen pdf) pdf Hl eq_refl)
    as (pdf' & E & _ & _ & Hb).
  by exists pdf'.
Qed.

Lemma out_of_range_iff row :
  out_of_range row = true
  <-> nonempty (strip (result_text row)) = true
      /\ exists r lo hi,
           float (result_text row) = Some r
           /\ parse_range (Normal_Values row) = (Some lo, Some hi)
           /\ ftruth r = true /\ ftruth lo = true /\ ftruth hi = true
           /\ (flt r lo = true \/ flt hi r = true).
Proof.
  unfold out_of_range. rewrite !andb_true_iff. split.
  - intros [[_ Hs] Hm]. split; [done|].
    destruct (float (result_text row)) as [r|]; [|done].
    destruct (parse_range (Normal_Values row)) as [[lo|] [hi|]]; try done.
    exists r, lo, hi.
    apply andb_true_iff in Hm as [[[? ?]%andb_true_iff ?]%andb_true_iff Hc].
    apply orb_true_iff in Hc. by split_and!.
  - intros [Hs (r & lo & hi & -> & -> & -> & -> & -> & Hc)].
    split_and!; [by apply strip_nonempty|done|].
    simpl. by apply orb_true_iff.
Qed.

(** X1. The Result cell of a row is drawn in bold 9 pt or in regular 9 pt,
    and in bold exactly when the text is not blank, it parses, both bounds
    were read off the range, the result and both bounds are non-zero
    (truthy), and the result is below the lower or above the upper bound. *)
Theorem result_bold_exactly_when (data : list Row)
    (section_title : option pystr) (pdf : PDF) :
  layer pdf = Body ->
  exists pdf' (f : Row -> Font),
    add_test_table data section_title pdf = (Ok tt, pdf')
    /\ body (ops pdf')
       = body (ops pdf) ++ section_title_cells section_title
         ++ flat_map (fun row => table_row_cells row (f row)) data
    /\ forall row,
         (f row = bold9 \/ f row = regular9)
         /\ (f row = bold9
             <-> nonempty (strip (result_text row)) = true
                 /\ exists r lo hi,
                      float (result_text row) = Some r
                      /\ parse_range (Normal_Values row) = (Some lo, Some hi)
                      /\ ftruth r = true /\ ftruth lo = true
                      /\ ftruth hi = true
                      /\ (flt r lo = true \/ flt hi r = true)).
Proof.
  intros Hl. destruct (table_trace data section_title pdf Hl) as (pdf' & E & Hb).
  exists pdf', result_font. split_and!; [done..|].
  intros row. rewrite <- out_of_range_iff. unfold result_font.
  destruct (out_of_range row); (split; [auto|]); split; done.
Qed.

(** X2. A result of zero, or a range with a zero bound, is never set in
    bold, however far outside the range the result lies. *)
Theorem zero_is_never_bold (data : list Row)
    (section_title : option pystr) (pdf : PDF) :
  layer pdf = Body ->
  exists pdf' (f : Row -> Font),
    add_test_table data section_title pdf = (Ok tt, pdf')
    /\ body (ops pdf')
       = body (ops pdf) ++ section_title_cells section_title
         ++ flat_map (fun row => table_row_cells row (f row)) data
    /\ forall row r lo hi,
         float (result_text row) = Some r ->
         parse_range (Normal_Values row) = (Some lo, Some hi) ->
         ftruth r = false \/ ftruth lo = false \/ ftruth hi = false ->
         f row = regular9.
Proof.
  intros Hl. destruct (table_trace data section_title pdf Hl) as (pdf' & E & Hb).
  exists pdf', result_font. split_and!; [done..|].
  intros row r lo hi Hr Hrange Hz. unfold result_font.
  destruct (out_of_range row) eqn:Ho; [|done].
  apply out_of_range_iff in Ho as (_ & r' & lo' & hi' & Hr' & Hrange' & ? & ? & ? & _).
  rewrite Hr in Hr'. rewrite Hrange in Hrange'. simplify_eq.
  destruct Hz as [? | [? | ?]]; congruence.
Qed.

Lemma no_hyphen_no_upper s : 45 ∉ s -> (parse_range (VStr s)).2 = None.
Proof.
  intros Hs. unfold parse_range. rewrite (split_no_sep _ _ Hs). simpl.
  by destruct (float s).
Qed.

Lemma no_space_no_upper s t :
  split 45 s !! 1%nat = Some t -> 32 ∉ t -> (parse_range (VStr s)).2 = None.
Proof.
  intros Ht Hsp. unfold parse_range. rewrite Ht. simpl.
  rewrite (split_no_sep _ _ Hsp). simpl.
  by destruct (_ ≫= _).
Qed.

(** X3. A range that is no text, has no hyphen ("Adequate"), or has no blank
    in what stands between its first and second hyphen ("5-10") gives no
    upper bound, and such a row is drawn in the regular font whatever its
    result. *)
Theorem range_without_upper_bound_is_regular (data : list Row)
    (section_title : option pystr) (pdf : PDF) :
  layer pdf = Body ->
  exists pdf' (f : Row -> Font),
    add_test_table data section_title pdf = (Ok tt, pdf')
    /\ body (ops pdf')
       = body (ops pdf) ++ section_title_cells section_title
         ++ flat_map (fun row => table_row_cells row (f row)) data
    /\ forall row,
         notna (Normal_Values row) = false
         \/ (exists s, Normal_Values row = VStr s /\ 45 ∉ s)
         \/ (exists s t, Normal_Values row = VStr s
                         /\ split 45 s !! 1%nat = Some t /\ 32 ∉ t) ->
         (parse_range (Normal_Values row)).2 = None
         /\ f row = regular9.
Proof.
  intros Hl. destruct (table_trace data section_title pdf Hl) as (pdf' & E & Hb).
  exists pdf', result_font. split_and!; [done..|].
  intros row Hrow.
  assert ((parse_range (Normal_Values row)).2 = None) as Hup.
  { destruct Hrow as [Hna | [(s & -> & Hs) | (s & t & -> & Ht & Hsp)]].
    - by destruct (Normal_Values row).
    - by apply no_hyphen_no_upper.
    - by eapply no_space_no_upper. }
  split; [done|].
  unfold result_font. destruct (out_of_range row) eqn:Ho; [|done].
  apply out_of_range_iff in Ho as (_ & r & lo & hi & _ & Hrange & _).
  by rewrite Hrange in Hup.
Qed.

End BoldFacts.

(** ** What each part of a report draws *)

Lemma cells_app l1 l2 : cells (l1 ++ l2) = cells l1 ++ cells l2.
Proof. apply List.filter_app. Qed.

Lemma cells_body l : cells (body l) = cells l.
Proof.
  unfold cells, body. induction l as [|o l IH]; simpl; [done|].
  destruct o as [n|[] w hh txt f u al fl|[] y1 y2]; simpl; by rewrite ?IH.
Qed.

Lemma draws_with_of_runs m p p' new :
  runs m p p' new -> draws_with m p p' (cells new).
Proof.
  intros Hm s Hl Hp. destruct (Hm s Hl Hp) as (s' & E & Hl' & Hp' & Hb).
  exists tt, s'. split_and!; [done..|].
  by rewrite <- (cells_body (ops s')), Hb, cells_app, cells_body.
Qed.

Lemma draws_with_bind {A B} (m : M A) (f : A -> M B) p p1 p2 n1 n2 :
  draws_with m p p1 n1 -> (forall a, draws_with (f a) p1 p2 n2) ->
  draws_with (m ≫= f) p p2 (n1 ++ n2).
Proof.
  intros Hm Hf s Hl Hp.
  destruct (Hm s Hl Hp) as (a & s1 & E1 & Hl1 & Hp1 & Hb1).
  destruct (Hf a s1 Hl1 Hp1) as (b & s2 & E2 & Hl2 & Hp2 & Hb2).
  exists b, s2. rewrite (bind_ok _ _ _ _ _ E1), E2, Hb2, Hb1, app_assoc. done.
Qed.

Lemma draws_with_skip {A B} (m : M A) (f : A -> M B) p p1 p2 n :
  draws_with m p p1 [] -> (forall a, draws_with (f a) p1 p2 n) ->
  draws_with (m ≫= f) p p2 n.
Proof. apply (draws_with_bind m f p p1 p2 [] n). Qed.

Lemma draws_with_last {A B} (m : M A) (f : A -> M B) p p1 p2 n :
  draws_with m p p1 n -> (forall a, draws_with (f a) p1 p2 []) ->
  draws_with (m ≫= f) p p2 n.
Proof.
  intros Hm Hf. rewrite <- (app_nil_r n). by apply (draws_with_bind m f p p1 p2).
Qed.

Lemma draws_with_cell w hh txt nl align fill f u :
  nonempty (family f) = true ->
  draws_with (cell w hh txt nl align fill) (f, u, Some false)
             (f, u, Some false) [OCell Body w hh txt f u align fill].
Proof.
  intros Hf.
  exact (draws_with_of_runs _ _ _ [OCell Body w hh txt f u align fill]
           (runs_cell w hh txt nl align fill f u Hf)).
Qed.

Lemma draws_with_set_font sty sz p :
  sty ∈ [py ""; py "B"; py "I"] -> sz ≠ 0%Z ->
  draws_with (set_font (py "Arial") sty sz) p (arial sty sz, false, Some false) [].
Proof.
  intros Hs Hz. exact (draws_with_of_runs _ _ _ [] (runs_set_font sty sz p Hs Hz)).
Qed.

Lemma draws_with_ln hh p : draws_with (ln hh) p p [].
Proof. exact (draws_with_of_runs _ _ _ [] (runs_ln hh p)). Qed.

Lemma draws_with_get_y p : draws_with get_y p p [].
Proof. intros s Hl Hp. exists (y s), s. by rewrite app_nil_r. Qed.

(** A rule is no cell. *)
Lemma draws_with_line y1 y2 p : draws_with (line y1 y2) p p [].
Proof.
  intros s Hl Hp. eexists tt, _. split; [reflexivity|].
  simpl. rewrite cells_app, Hl. simpl. by rewrite app_nil_r.
Qed.

Lemma draws_with_rule p : draws_with (y0 ← get_y; line y0 y0) p p [].
Proof.
  apply (draws_with_bind _ _ p p p [] []); [apply draws_with_get_y|].
  intros y0. apply draws_with_line.
Qed.

Lemma draws_of_with {A} (m : M A) f' u' b' new :
  (forall p, draws_with m p (f', u', b') new) ->
  nonempty (family f') = true ->
  draws m new.
Proof.
  intros Hm Hf s [Hl _].
  destruct (Hm (pen s) s Hl eq_refl) as (a & s' & E & Hl' & Hp' & Hc).
  exists a, s'. split; [done|]. split; [|done].
  split; [done|]. injection Hp' as Hfont _ _. by rewrite Hfont.
Qed.

Lemma draws_ret {A} (a : A) : draws (mret a) [].
Proof. intros s Hs. exists a, s. by rewrite app_nil_r. Qed.

Lemma draws_bind {A B} (m : M A) (f : A -> M B) n1 n2 :
  draws m n1 -> (forall a, draws (f a) n2) -> draws (m ≫= f) (n1 ++ n2).
Proof.
  intros Hm Hf s Hs.
  destruct (Hm s Hs) as (a & s1 & E1 & Hs1 & Hb1).
  destruct (Hf a s1 Hs1) as (b & s2 & E2 & Hs2 & Hb2).
  exists b, s2. rewrite (bind_ok _ _ _ _ _ E1), E2, Hb2, Hb1, app_assoc. done.
Qed.

Lemma draws_add_page : draws add_page [].
Proof.
  intros s [Hl Hf].
  destruct (add_page_ok s) as (s' & E & _ & Hl' & _ & _ & Hp & Hb).
  exists tt, s'. split; [done|]. split.
  - split; [done|]. specialize (Hp Hf). injection Hp as Hfont _ _.
    by rewrite Hfont.
  - by rewrite app_nil_r, <- (cells_body (ops s')), Hb, cells_body.
Qed.

Lemma draws_with_title title p :
  draws_with (add_report_title title) p (bold9, false, Some false) (title_cells title).
Proof.
  unfold add_report_title, title_cells.
  apply (draws_with_skip _ _ p p); [apply draws_with_get_y|]. intros _.
  apply (draws_with_skip _ _ p (arial (py "B") 14, false, Some false));
    [apply draws_with_set_font; [set_solver|done]|]. intros _.
  apply (draws_with_bind _ _ _ (arial (py "B") 14, false, Some false) _ [_] _);
    [by apply draws_with_cell|]. intros _.
  apply (draws_with_skip _ _ _ (arial (py "B") 14, false, Some false));
    [apply draws_with_get_y|]. intros y0.
  apply (draws_with_skip _ _ _ (arial (py "B") 14, false, Some false));
    [apply draws_with_line|]. intros _.
  apply (draws_with_skip _ _ _ (arial (py "B") 14, false, Some false));
    [apply draws_with_ln|]. intros _.
  apply (draws_with_skip _ _ _ (bold9, false, Some false));
    [apply draws_with_set_font; [set_solver|done]|]. intros _.
  do 3 (apply (draws_with_bind _ _ _ (bold9, false, Some false) _ [_] _);
        [by apply draws_with_cell|]; intros _).
  apply (draws_with_last _ _ _ (bold9, false, Some false));
    [by apply draws_with_cell|]. intros _.
  apply (draws_with_skip _ _ _ (bold9, false, Some false));
    [apply draws_with_ln|]. intros _.
  apply draws_with_get_y.
Qed.

Lemma draws_with_field label v last :
  draws_with (field label v last) (bold9, false, Some false) (bold9, false, Some false)
             (field_cells label v).
Proof.
  unfold field, field_cells.
  apply (draws_with_bind _ _ _ (bold9, false, Some false) _ [_] [_; _]);
    [by apply draws_with_cell|]. intros _.
  apply (draws_with_bind _ _ _ (bold9, false, Some false) _ [_] [_]);
    [by apply draws_with_cell|]. intros _.
  by apply draws_with_cell.
Qed.

Lemma draws_with_patient_info patient_info p :
  draws_with (add_patient_info patient_info) p (bold9, false, Some false)
             (patient_cells patient_info).
Proof.
  unfold add_patient_info, patient_cells.
  apply (draws_with_skip _ _ p (bold9, false, Some false));
    [apply draws_with_set_font; [set_solver|done]|]. intros _.
  do 7 (apply (draws_with_bind _ _ _ (bold9, false, Some false));
        [apply draws_with_field|]; intros _).
  apply (draws_with_last _ _ _ (bold9, false, Some false));
    [apply draws_with_field|]. intros _.
  apply (draws_with_skip _ _ _ (bold9, false, Some false));
    [apply draws_with_ln|]. intros _.
  apply (draws_with_skip _ _ _ (bold9, false, Some false));
    [apply draws_with_get_y|]. intros y0.
  apply (draws_with_skip _ _ _ (bold9, false, Some false));
    [apply draws_with_line|]. intros _.
  apply draws_with_ln.
Qed.

Lemma draws_skip {A B} (m : M A) (f : A -> M B) n :
  draws m [] -> (forall a, draws (f a) n) -> draws (m ≫= f) n.
Proof. apply (draws_bind m f [] n). Qed.

Lemma draws_last {A B} (m : M A) (f : A -> M B) n :
  draws m n -> (forall a, draws (f a) []) -> draws (m ≫= f) n.
Proof. intros Hm Hf. rewrite <- (app_nil_r n). by apply draws_bind. Qed.

Lemma draws_ret_bind {A B} (a : A) (f : A -> M B) n :
  draws (f a) n -> draws (mret a ≫= f) n.
Proof. intros Hf s Hs. exact (Hf s Hs). Qed.

Lemma draws_note txt :
  draws (set_font (py "Arial") (py "I") 8;;
         cell 0 5 txt true (py "") false;;
         ln 5)
        [note_cell txt].
Proof.
  apply (draws_of_with _ (arial (py "I") 8) false (Some false)); [|done]. intros p.
  apply (draws_with_skip _ _ p (arial (py "I") 8, false, Some false));
    [apply draws_with_set_font; [set_solver|done]|]. intros _.
  apply (draws_with_last _ _ _ (arial (py "I") 8, false, Some false));
    [by apply draws_with_cell|]. intros _.
  apply draws_with_ln.
Qed.

Lemma draws_title title : draws (add_report_title title) (title_cells title).
Proof.
  apply (draws_of_with _ bold9 false (Some false)); [|done]. intros p.
  apply draws_with_title.
Qed.

Lemma draws_patient_info patient_info :
  draws (add_patient_info patient_info) (patient_cells patient_info).
Proof.
  apply (draws_of_with _ bold9 false (Some false)); [|done]. intros p.
  apply draws_with_patient_info.
Qed.

Section ReportFacts.
Context `{PyFloat}.

Lemma cells_rows data : cells (rows_cells data) = rows_cells data.
Proof.
  unfold rows_cells. induction data as [|row data IH]; simpl; [done|].
  by rewrite IH.
Qed.

Lemma cells_section_title t :
  cells (section_title_cells t) = section_title_cells t.
Proof. destruct t as [t|]; simpl; [|done]. by destruct (nonempty t). Qed.

Lemma draws_table data section_title :
  draws (add_test_table data section_title)
        (section_title_cells section_title ++ rows_cells data).
Proof.
  apply (draws_of_with _ regular9 false (Some false)); [|done]. intros p.
  rewrite <- cells_rows, <- cells_section_title, <- cells_app.
  apply draws_with_of_runs, runs_add_test_table.
Qed.

Lemma draws_section subset section_title :
  draws (print_if_has_result subset section_title)
        (section_cells subset section_title).
Proof.
  unfold print_if_has_result, section_cells.
  destruct (List.filter has_result subset) as [|row rows]; [apply draws_ret|].
  apply draws_table.
Qed.

Lemma draws_cbc patient_info report_data data :
  report_data !! CBC = Some data ->
  draws (generate_cbc_report patient_info report_data) (cbc_cells data).
Proof.
  intros Hdata. unfold generate_cbc_report, lookup_report, cbc_cells.
  rewrite Hdata. apply draws_ret_bind.
  apply draws_bind; [apply draws_title|]. intros _.
  do 5 (apply draws_bind; [apply draws_section|]; intros _).
  apply draws_note.
Qed.

Lemma draws_lft patient_info report_data data :
  report_data !! LFT = Some data ->
  draws (generate_lft_report patient_info report_data) (lft_cells data).
Proof.
  intros Hdata. unfold generate_lft_report, lookup_report, lft_cells.
  rewrite Hdata. apply draws_ret_bind.
  apply draws_bind; [apply draws_title|]. intros _.
  apply draws_bind; [apply draws_section|]. intros _.
  apply draws_note.
Qed.

End ReportFacts.

(** ** The whole report *)

Lemma first_page_ready logo :
  exists s1, add_page (LabReportPDF logo) = (Ok tt, s1)
             /\ layer s1 = Body /\ cells (ops s1) = [].
Proof.
  destruct (add_page_ok (LabReportPDF logo)) as (s1 & E & _ & Hl & _ & _ & _ & Hb).
  exists s1. split_and!; [done..|].
  by rewrite <- cells_body, Hb.
Qed.

(** Closing the document adds the last footer and no cell to the body. *)
Lemma close_keeps_cells s :
  ready s -> exists s', close s = (Ok tt, s') /\ cells (ops s') = cells (ops s).
Proof.
  intros Hs. unfold close, close_with.
  rewrite (bind_ok _ _ s (page s) s) by reflexivity.
  assert (exists s1, (if (page s =? 0)%nat then add_page_with header footer
                      else mret tt) s = (Ok tt, s1)
                     /\ cells (ops s1) = cells (ops s)) as (s1 & E1 & Hc1).
  { destruct (page s =? 0)%nat; [|by exists s].
    destruct (draws_add_page s Hs) as ([] & s1 & E & _ & Hc).
    exists s1. by rewrite app_nil_r in Hc. }
  rewrite (bind_ok _ _ _ _ _ E1).
  eexists. split; [reflexivity|].
  simpl. by rewrite cells_app, app_nil_r.
Qed.

Lemma for_each_app {A} (xs ys : list A) (step : A -> M unit) s :
  for_each (xs ++ ys) step s = (for_each xs step;; for_each ys step) s.
Proof.
  revert s. induction xs as [|x xs IH]; intros s; simpl; [reflexivity|].
  cbv [mbind M_bind]. destruct (step x s) as [[[]|e] s1]; [|done].
  rewrite IH. reflexivity.
Qed.

Lemma draws_for_each {A} (xs : list A) (step : A -> M unit) new :
  (forall x, x ∈ xs -> draws (step x) (new x)) ->
  draws (for_each xs step) (flat_map new xs).
Proof.
  induction xs as [|x xs IH]; intros Hstep; simpl; [apply draws_ret|].
  apply draws_bind; [apply Hstep; left|]. intros _.
  apply IH. intros x' Hx'. apply Hstep. by right.
Qed.

(** ** What can be encoded *)

Lemma encodable_split l : encodable l = hooks_ok l && encodable (cells l).
Proof.
  unfold encodable, hooks_ok, cells. induction l as [|o l IH]; [done|].
  simpl. rewrite IH. destruct (is_body_cell o); simpl.
  - by rewrite andb_assoc, (andb_comm (text_ok o)), <- andb_assoc.
  - by rewrite andb_assoc.
Qed.

Lemma hooks_ok_app l1 l2 : hooks_ok (l1 ++ l2) = hooks_ok l1 && hooks_ok l2.
Proof. apply forallb_app. Qed.

Create HintDb neat.

Lemma neat_ret {A} (a : A) : neat (mret a).
Proof. by intros s. Qed.

Lemma neat_raise {A} e : neat (@raise A e).
Proof. by intros s. Qed.

Lemma neat_bind {A B} (m : M A) (f : A -> M B) :
  neat m -> (forall a, neat (f a)) -> neat (m ≫= f).
Proof.
  intros Hm Hf s Hl Hh. destruct (Hm s Hl Hh) as [Hl1 Hh1].
  unfold mbind, M_bind. destruct (m s) as [[a|e] s']; [by apply Hf|done].
Qed.

Lemma neat_try {A} (m handler : M A) :
  neat m -> neat handler -> neat (try_except m handler).
Proof.
  intros Hm Hh s Hl Hok. destruct (Hm s Hl Hok) as [Hl1 Hh1].
  unfold try_except. destruct (m s) as [[a|e] s']; [done|by apply Hh].
Qed.

Lemma neat_if {A} (b : bool) (m k : M A) :
  neat m -> neat k -> neat (if b then m else k).
Proof. by destruct b. Qed.

Lemma neat_for_each {A} (xs : list A) (step : A -> M unit) :
  (forall x, neat (step x)) -> neat (for_each xs step).
Proof.
  intros Hstep. induction xs as [|x xs IH]; simpl; [apply neat_ret|].
  apply neat_bind; [apply Hstep|done].
Qed.

Lemma neat_get {A} (f : PDF -> A) : neat (get f).
Proof. by intros s. Qed.

Lemma neat_get_y : neat get_y.
Proof. by intros s. Qed.

Lemma neat_set_font fam sty sz : neat (set_font fam sty sz).
Proof.
  intros s Hl Hh. unfold set_font.
  match goal with |- context [core_font ?a ?b] => destruct (core_font a b) end;
    by split.
Qed.

Lemma neat_ln hh : neat (ln hh).
Proof. by intros s. Qed.

Lemma neat_set_y v : neat (set_y v).
Proof. by intros s. Qed.

Lemma neat_line y1 y2 : neat (line y1 y2).
Proof.
  intros s Hl Hh. split; [done|]. simpl. by rewrite hooks_ok_app, Hh.
Qed.

Lemma neat_put_cell w hh txt nl align fill :
  neat (put_cell w hh txt nl align fill).
Proof.
  intros s Hl Hh. destruct nl; (split; [done|]); simpl;
    by rewrite hooks_ok_app, Hh, Hl.
Qed.

Lemma neat_add_page : neat add_page.
Proof.
  intros s Hl Hh. unfold add_page, add_page_with.
  cbv [mbind M_bind get modify in_layer].
  destruct (0 <? page s)%nat, (nonempty (family (font s))); (split; [done|]);
    simpl; rewrite !hooks_ok_app, Hh; done.
Qed.

Lemma neat_cell w hh txt nl align fill : neat (cell w hh txt nl align fill).
Proof.
  intros s Hl Hh. unfold cell, cell_with.
  rewrite (bind_ok _ _ s s s) by reflexivity.
  destruct (unifontsubset s); [|done]. fold add_page.
  apply (neat_bind _ (fun _ => put_cell w hh txt nl align fill)); try done.
  - apply neat_if; [apply neat_add_page|apply neat_ret].
  - intros _. apply neat_put_cell.
Qed.

Lemma neat_close : neat close.
Proof.
  unfold close, close_with. fold add_page.
  apply neat_bind; [apply neat_get|]. intros p.
  apply neat_bind; [apply neat_if; [apply neat_add_page|apply neat_ret]|].
  intros _ s Hl Hh. split; [done|]. simpl. by rewrite hooks_ok_app, Hh.
Qed.

#[local] Hint Resolve neat_ret neat_raise neat_get neat_get_y neat_set_font neat_ln
  neat_set_y neat_line neat_put_cell neat_add_page neat_cell neat_close
  neat_for_each : neat.

Ltac neat :=
  cbv zeta;
  repeat first
    [ solve [auto with neat]
    | apply neat_if
    | apply neat_try
    | apply neat_bind; [|intros ?] ].

Lemma neat_add_report_title title : neat (add_report_title title).
Proof. unfold add_report_title. neat. Qed.

Lemma neat_add_patient_info patient_info :
  neat (add_patient_info patient_info).
Proof. unfold add_patient_info, field. neat. Qed.

#[local] Hint Resolve neat_add_report_title neat_add_patient_info : neat.

Section NeatFacts.
Context `{PyFloat}.

Lemma neat_render_row row : neat (render_row row).
Proof.
  unfold render_row, regular_result, bold_result.
  destruct (parse_range _) as [[lo|] [hi|]], (float _) as [r|];
    cbv beta iota; neat.
Qed.

Lemma neat_add_test_table data section_title :
  neat (add_test_table data section_title).
Proof.
  pose proof neat_render_row.
  unfold add_test_table. destruct section_title as [t|]; neat.
Qed.

Lemma neat_print_if_has_result subset section_title :
  neat (print_if_has_result subset section_title).
Proof.
  unfold print_if_has_result.
  destruct (List.filter _ _); [apply neat_ret|apply neat_add_test_table].
Qed.

Lemma neat_generate_cbc_report patient_info report_data :
  neat (generate_cbc_report patient_info report_data).
Proof.
  pose proof neat_print_if_has_result.
  unfold generate_cbc_report, lookup_report.
  destruct (report_data !! CBC); neat.
Qed.

Lemma neat_generate_lft_report patient_info report_data :
  neat (generate_lft_report patient_info report_data).
Proof.
  pose proof neat_print_if_has_result.
  unfold generate_lft_report, lookup_report.
  destruct (report_data !! LFT); neat.
Qed.

Lemma neat_selection patient_info report_data selected last_name :
  neat (for_each selected (fun report_name =>
          (if str_eqb report_name CBC then
             generate_cbc_report patient_info report_data
           else if str_eqb report_name LFT then
             generate_lft_report patient_info report_data
           else mret tt);;
          if negb (bool_decide (Some report_name = last_name)) then
            add_page;;
            add_patient_info patient_info
          else mret tt)).
Proof.
  pose proof neat_generate_cbc_report. pose proof neat_generate_lft_report.
  apply neat_for_each. intros name. neat.
Qed.

End NeatFacts.

Section DocumentFacts.
Context `{PyFloat}.

Lemma draws_panel patient_info report_data name :
  (name = CBC \/ name = LFT -> is_Some (report_data !! name)) ->
  draws (if str_eqb name CBC then generate_cbc_report patient_info report_data
         else if str_eqb name LFT then
           generate_lft_report patient_info report_data
         else mret tt)
        (panel_cells report_data name).
Proof.
  intros Hdata. unfold panel_cells, str_eqb.
  destruct (decide (name = CBC)) as [->|Hc].
  { rewrite bool_decide_eq_true_2 by done.
    destruct Hdata as [data Hd]; [by left|]. rewrite Hd. by apply draws_cbc. }
  rewrite (bool_decide_eq_false_2 _ Hc).
  destruct (decide (name = LFT)) as [->|Hl].
  { rewrite bool_decide_eq_true_2 by done.
    destruct Hdata as [data Hd]; [by right|]. rewrite Hd. by apply draws_lft. }
  rewrite (bool_decide_eq_false_2 _ Hl). apply draws_ret.
Qed.

Lemma draws_selection patient_info report_data selected last_name :
  has_data report_data selected ->
  draws (for_each selected (fun report_name =>
           (if str_eqb report_name CBC then
              generate_cbc_report patient_info report_data
            else if str_eqb report_name LFT then
              generate_lft_report patient_info report_data
            else mret tt);;
           if negb (bool_decide (Some report_name = last_name)) then
             add_page;;
             add_patient_info patient_info
           else mret tt))
        (flat_map (fun report_name =>
                     panel_cells report_data report_name
                     ++ if bool_decide (Some report_name = last_name)
                        then [] else patient_cells patient_info)
           selected).
Proof.
  intros Hdata. apply draws_for_each. intros name Hname.
  apply draws_bind; [apply draws_panel; auto|]. intros _.
  destruct (bool_decide (Some name = last_name)); simpl; [apply draws_ret|].
  apply draws_skip; [apply draws_add_page|]. intros _.
  apply draws_patient_info.
Qed.

(** The cells of the written document, for a selection that can be drawn
    and texts that can be encoded; with a text that cannot, nothing is
    written. *)
Lemma create_pdf_report_cells os patient_info report_data selected logo fs :
  has_data report_data selected ->
  writable os (report_filename os patient_info) = true ->
  if encodable (document_cells patient_info report_data selected) then
    exists document,
      create_pdf_report os patient_info report_data selected logo fs
      = (Ok (report_filename os patient_info),
         <[report_filename os patient_info := PdfFile document]> fs)
      /\ cells document = document_cells patient_info report_data selected
  else
    create_pdf_report os patient_info report_data selected logo fs
    = (Raise UnicodeEncodeError, fs).
Proof.
  intros Hdata Hw. unfold create_pdf_report, output.
  set (s0 := LabReportPDF logo).
  destruct (first_page_ready logo) as (s1 & E1 & Hl1 & Hc1).
  destruct (draws_with_patient_info patient_info (pen s1) s1 Hl1 eq_refl)
    as ([] & s2 & E2 & Hl2 & Hp2 & Hc2).
  assert (ready s2) as Hs2.
  { split; [done|]. injection Hp2 as Hf _ _. by rewrite Hf. }
  destruct (draws_selection patient_info report_data selected (last selected)
              Hdata s2 Hs2) as ([] & s3 & E3 & Hs3 & Hc3).
  destruct (close_keeps_cells s3 Hs3) as (s4 & E4 & Hc4).
  assert (hooks_ok (ops s4) = true) as Hh4.
  { destruct (neat_add_page s0 eq_refl eq_refl) as [_ Hh1].
    fold s0 in E1. rewrite E1 in Hh1.
    destruct (neat_add_patient_info patient_info s1 Hl1 Hh1) as [_ Hh2].
    rewrite E2 in Hh2.
    destruct (neat_selection patient_info report_data selected (last selected)
                s2 Hl2 Hh2) as [Hl3 Hh3].
    rewrite E3 in Hl3, Hh3.
    destruct (neat_close s3 Hl3 Hh3) as [_ Hh4]. by rewrite E4 in Hh4. }
  fold s0 in E1.
  rewrite (bind_ok _ _ _ _ _ E1), (bind_ok _ _ _ _ _ E2),
    (bind_ok _ _ _ _ _ E3), (bind_ok _ _ _ _ _ E4).
  rewrite (bind_ok _ _ s4 (ops s4) s4) by reflexivity.
  assert (cells (ops s4) = document_cells patient_info report_data selected)
    as Hcells by (unfold document_cells; by rewrite Hc4, Hc3, Hc2, Hc1).
  assert (encodable (ops s4)
          = encodable (document_cells patient_info report_data selected))
    as -> by (by rewrite encodable_split, Hh4, Hcells).
  destruct (encodable (document_cells _ _ _)); [|done].
  simpl. rewrite Hw. by exists (ops s4).
Qed.

End DocumentFacts.

(** ** Reading the written document *)

Lemma report_titles_app l1 l2 :
  report_titles (l1 ++ l2) = report_titles l1 ++ report_titles l2.
Proof. apply omap_app. Qed.

Lemma report_titles_cells l : report_titles (cells l) = report_titles l.
Proof.
  induction l as [|o l IH]; [done|].
  destruct o as [n|[] w hh txt f u al fl|[] y1 y2]; simpl; by rewrite ?IH.
Qed.

Lemma patient_blocks_app l1 l2 :
  patient_blocks (l1 ++ l2) = (patient_blocks l1 + patient_blocks l2)%nat.
Proof. unfold patient_blocks. by rewrite List.filter_app, length_app. Qed.

Lemma patient_blocks_cells l : patient_blocks (cells l) = patient_blocks l.
Proof.
  unfold patient_blocks, cells. induction l as [|o l IH]; [done|].
  destruct o as [n|[] w hh txt f u al fl|[] y1 y2]; simpl; try done.
  destruct (_ && _); simpl; by rewrite IH.
Qed.

Lemma last_differs_count (xs : list (list N)) l :
  NoDup xs -> l ∈ xs ->
  S (length (List.filter (fun name => negb (bool_decide (Some name = Some l))) xs))
  = length xs.
Proof.
  induction 1 as [|x xs Hx Hnd IH]; intros Hl; [by apply elem_of_nil in Hl|].
  simpl. destruct (decide (x = l)) as [->|Hne].
  - rewrite bool_decide_eq_true_2 by done. simpl. f_equal.
    clear IH Hl Hnd. induction xs as [|x xs IH]; simpl; [done|].
    apply not_elem_of_cons in Hx as [Hne Hx].
    rewrite bool_decide_eq_false_2 by congruence. simpl. by rewrite IH.
  - rewrite bool_decide_eq_false_2 by congruence. simpl. f_equal.
    apply IH. by apply elem_of_cons in Hl as [->|Hl].
Qed.

Section ReadingFacts.
Context `{PyFloat}.

Lemma report_titles_rows data : report_titles (rows_cells data) = [].
Proof.
  unfold rows_cells. induction data as [|row data IH]; [done|].
  simpl. unfold result_font. by destruct (out_of_range row).
Qed.

Lemma report_titles_section subset t : report_titles (section_cells subset t) = [].
Proof.
  unfold section_cells. destruct (List.filter has_result subset); [done|].
  rewrite report_titles_app, report_titles_rows.
  destruct t as [t|]; [|done]. simpl. by destruct (nonempty t).
Qed.

Lemma report_titles_panel report_data name :
  (name = CBC \/ name = LFT -> is_Some (report_data !! name)) ->
  report_titles (panel_cells report_data name) = section_title_of name.
Proof.
  intros Hdata. unfold panel_cells, section_title_of, str_eqb.
  destruct (decide (name = CBC)) as [->|Hc].
  { rewrite !bool_decide_eq_true_2 by done.
    destruct Hdata as [data ->]; [by left|]. unfold cbc_cells.
    rewrite !report_titles_app, !report_titles_section. reflexivity. }
  rewrite !(bool_decide_eq_false_2 _ Hc).
  destruct (decide (name = LFT)) as [->|Hl].
  { rewrite !bool_decide_eq_true_2 by done.
    destruct Hdata as [data ->]; [by right|]. unfold lft_cells.
    rewrite !report_titles_app, !report_titles_section. reflexivity. }
  by rewrite !(bool_decide_eq_false_2 _ Hl).
Qed.

Lemma patient_blocks_rows data : patient_blocks (rows_cells data) = O.
Proof.
  unfold rows_cells, patient_blocks. induction data as [|row data IH]; [done|].
  simpl. exact IH.
Qed.

Lemma patient_blocks_section subset t :
  patient_blocks (section_cells subset t) = O.
Proof.
  unfold section_cells. destruct (List.filter has_result subset); [done|].
  rewrite patient_blocks_app, patient_blocks_rows.
  destruct t as [t|]; [|done]. simpl. by destruct (nonempty t).
Qed.

Lemma patient_blocks_panel report_data name :
  patient_blocks (panel_cells report_data name) = O.
Proof.
  unfold panel_cells.
  destruct (str_eqb name CBC); [|destruct (str_eqb name LFT); [|done]];
    (destruct (report_data !! _) as [data|]; [|done]).
  - unfold cbc_cells.
    rewrite !patient_blocks_app, !patient_blocks_section. reflexivity.
  - unfold lft_cells.
    rewrite !patient_blocks_app, !patient_blocks_section. reflexivity.
Qed.

Lemma patient_blocks_patient patient_info :
  patient_blocks (patient_cells patient_info) = 1%nat.
Proof. reflexivity. Qed.

End ReadingFacts.

(** ** The report as a whole *)

Lemma replace_no_space s : 32 ∉ replace 32 95 s.
Proof.
  unfold replace. induction s as [|c s IH]; simpl; [apply not_elem_of_nil|].
  apply not_elem_of_cons. split; [|done].
  destruct (N.eqb_spec c 32) as [->|Hc]; [done|congruence].
Qed.

Lemma replace_keeps c s : c ≠ 32 -> c ∈ s -> c ∈ replace 32 95 s.
Proof.
  intros Hc Hs. unfold replace. apply list_elem_of_fmap. exists c. split; [|done].
  by destruct (N.eqb_spec c 32).
Qed.

(** The two ways [check_page_break] can go. *)
Lemma check_page_break_branch s hn :
  (PrimFloat.ltb (h s - 60) (y s + hn) = true
   /\ exists s', add_page s = (Ok tt, s')
                 /\ check_page_break hn s = (Ok true, s'))
  \/ (PrimFloat.ltb (h s - 60) (y s + hn) = false
      /\ check_page_break hn s = (Ok false, s)).
Proof.
  unfold check_page_break, get_y.
  rewrite (bind_ok _ _ s (y s) s), (bind_ok _ _ s (h s) s) by reflexivity.
  destruct (PrimFloat.ltb (h s - 60) (y s + hn)); [left|by right].
  split; [done|]. destruct (add_page_ok s) as (s' & Ea & _).
  exists s'. by rewrite (bind_ok _ _ _ _ _ Ea).
Qed.

Lemma check_page_break_body s hn :
  layer s = Body ->
  exists b s', check_page_break hn s = (Ok b, s') /\ layer s' = Body
               /\ body (ops s') = body (ops s).
Proof.
  intros Hl.
  destruct (check_page_break_branch s hn) as [(_ & s' & Ea & E) | (_ & E)].
  - destruct (add_page_ok s) as (s'' & Ea' & _ & Hl' & _ & _ & _ & Hb).
    rewrite Ea in Ea'. simplify_eq. by exists true, s''.
  - by exists false, s.
Qed.

Section WholeReport.
Context `{PyFloat}.

(** X4. A section of a panel shows, under its heading, exactly the rows of
    the subset that have a result, in table order and each with its four
    cells; with no such row it shows nothing. *)
Theorem section_draws_rows_with_results (subset : list Row)
    (section_title : option pystr) (pdf : PDF) :
  ready pdf ->
  exists pdf',
    print_if_has_result subset section_title pdf = (Ok tt, pdf')
    /\ ready pdf'
    /\ cells (ops pdf')
       = cells (ops pdf)
         ++ match List.filter has_result subset with
            | [] => []
            | rows =>
                section_title_cells section_title
                ++ flat_map (fun row => table_row_cells row (result_font row))
                     rows
            end.
Proof.
  intros Hs.
  destruct (draws_section subset section_title pdf Hs) as ([] & pdf' & ?).
  by exists pdf'.
Qed.

(** X5. A panel that was selected and left as the template gives it draws
    its heading and its closing note and no row at all. *)
Theorem unfilled_panel_draws_no_row (patient_info : PatientInfo)
    (report_data : gmap (list N) (list Row)) (pdf : PDF) :
  ready pdf ->
  (exists pdf',
     generate_cbc_report patient_info
       (<[CBC := load_report_template CBC]> report_data) pdf = (Ok tt, pdf')
     /\ cells (ops pdf')
        = cells (ops pdf) ++ title_cells (py "COMPLETE BLOOD COUNT(CBC)")
          ++ [note_cell
                (py "Test done on Nihon Kohden MEK- 6420K fully automated cell counter.")])
  /\ (exists pdf',
        generate_lft_report patient_info
          (<[LFT := load_report_template LFT]> report_data) pdf = (Ok tt, pdf')
        /\ cells (ops pdf')
           = cells (ops pdf) ++ title_cells (py "Liver Function Test (LFT)")
             ++ [note_cell
                   (py "Test Done on semi automated analyser Micro Lab RX-50.")]).
Proof.
  intros Hs. split.
  - destruct (draws_cbc patient_info _ (load_report_template CBC)
                (lookup_insert_eq report_data CBC _)
                pdf Hs) as ([] & pdf' & E & _ & Hc).
    exists pdf'. split; [done|]. rewrite Hc. reflexivity.
  - destruct (draws_lft patient_info _ (load_report_template LFT)
                (lookup_insert_eq report_data LFT _)
                pdf Hs) as ([] & pdf' & E & _ & Hc).
    exists pdf'. split; [done|]. rewrite Hc. reflexivity.
Qed.

(** C7. A row whose Result is missing or blank leaves no trace, and a
    section none of whose rows has a result is left out whole, title and
    all.  In full: taking such a row out of the CBC or LFT table changes
    nothing of what the generator does; the helper returns without touching
    the object when no row of the subset has a result; and what either
    generator draws is its title block, its sections and its closing note,
    where a section is empty when every row of it is blank and is not
    changed by a blank row. *)
Theorem blank_rows_are_skipped :
  (forall patient_info report_data data1 row data2 pdf,
     blank_result row ->
     generate_cbc_report patient_info
       (<[CBC := data1 ++ row :: data2]> report_data) pdf
     = generate_cbc_report patient_info
         (<[CBC := data1 ++ data2]> report_data) pdf)
  /\ (forall patient_info report_data data1 row data2 pdf,
        blank_result row ->
        generate_lft_report patient_info
          (<[LFT := data1 ++ row :: data2]> report_data) pdf
        = generate_lft_report patient_info
            (<[LFT := data1 ++ data2]> report_data) pdf)
  /\ (forall subset section_title pdf,
        Forall blank_result subset ->
        print_if_has_result subset section_title pdf = (Ok tt, pdf))
  /\ (forall patient_info report_data data pdf,
        ready pdf ->
        report_data !! CBC = Some data ->
        exists pdf',
          generate_cbc_report patient_info report_data pdf = (Ok tt, pdf')
          /\ cells (ops pdf') = cells (ops pdf) ++ cbc_cells data)
  /\ (forall patient_info report_data data pdf,
        ready pdf ->
        report_data !! LFT = Some data ->
        exists pdf',
          generate_lft_report patient_info report_data pdf = (Ok tt, pdf')
          /\ cells (ops pdf') = cells (ops pdf) ++ lft_cells data)
  /\ (forall subset section_title,
        Forall blank_result subset ->
        section_cells subset section_title = [])
  /\ (forall subset1 row subset2 section_title,
        blank_result row ->
        section_cells (subset1 ++ row :: subset2) section_title
        = section_cells (subset1 ++ subset2) section_title).
Proof.
  assert (forall subset, Forall blank_result subset ->
                         List.filter has_result subset = []) as Hnone.
  { intros subset Hall.
    induction Hall as [|row rows Hrow%has_result_false _ IH]; simpl; [done|].
    by rewrite Hrow. }
  split_and!.
  - intros pi rd d1 row d2 pdf Hrow%has_result_false.
    unfold generate_cbc_report, lookup_report.
    rewrite !lookup_insert_eq. cbv [mbind M_bind mret M_ret].
    by rewrite !(print_drop_blank _ d1 row d2 _ Hrow).
  - intros pi rd d1 row d2 pdf Hrow%has_result_false.
    unfold generate_lft_report, lookup_report.
    rewrite !lookup_insert_eq. cbv [mbind M_bind mret M_ret].
    by rewrite !(print_drop_blank _ d1 row d2 _ Hrow).
  - intros subset title pdf Hall. unfold print_if_has_result.
    by rewrite (Hnone subset Hall).
  - intros pi rd data pdf Hs Hdata.
    destruct (draws_cbc pi rd data Hdata pdf Hs) as ([] & pdf' & E & _ & Hc).
    by exists pdf'.
  - intros pi rd data pdf Hs Hdata.
    destruct (draws_lft pi rd data Hdata pdf Hs) as ([] & pdf' & E & _ & Hc).
    by exists pdf'.
  - intros subset title Hall. unfold section_cells.
    by rewrite (Hnone subset Hall).
  - intros s1 row s2 title Hrow%has_result_false. unfold section_cells.
    rewrite !List.filter_app. simpl. by rewrite Hrow.
Qed.

(** X6. For a selection whose blood-count and liver tables are present, a
    writable file name, and texts that all lie in Latin-1 (the encoding the
    pages are written in), [create_pdf_report] returns the file name and the
    written document holds, cell for cell: the patient block, then for each
    selected name its panel (nothing for other names), followed by the
    patient block again unless the name equals the last one selected.  Page
    breaks on the way neither lose nor repeat a cell. *)
Theorem report_document_cells (os : OS) (patient_info : PatientInfo)
    (report_data : gmap (list N) (list Row)) (selected_reports : list pystr)
    (logo : option pystr) (fs : gmap (list N) file) :
  has_data report_data selected_reports ->
  writable os (report_filename os patient_info) = true ->
  encodable (document_cells patient_info report_data selected_reports)
  = true ->
  exists document,
    create_pdf_report os patient_info report_data selected_reports logo fs
    = (Ok (report_filename os patient_info),
       <[report_filename os patient_info := PdfFile document]> fs)
    /\ cells document
       = document_cells patient_info report_data selected_reports.
Proof.
  intros Hdata Hw He.
  pose proof (create_pdf_report_cells os patient_info report_data
                selected_reports logo fs Hdata Hw) as Hc.
  by rewrite He in Hc.
Qed.

(** X17. A text of the document outside Latin-1 (a patient name, a result, a
    test name with a character beyond code point 255) makes
    [create_pdf_report] raise [UnicodeEncodeError] when the pages are
    written out, once everything has been drawn; no file is written. *)
Theorem unencodable_text_raises (os : OS) (patient_info : PatientInfo)
    (report_data : gmap (list N) (list Row)) (selected_reports : list pystr)
    (logo : option pystr) (fs : gmap (list N) file) :
  has_data report_data selected_reports ->
  writable os (report_filename os patient_info) = true ->
  encodable (document_cells patient_info report_data selected_reports)
  = false ->
  create_pdf_report os patient_info report_data selected_reports logo fs
  = (Raise UnicodeEncodeError, fs).
Proof.
  intros Hdata Hw He.
  pose proof (create_pdf_report_cells os patient_info report_data
                selected_reports logo fs Hdata Hw) as Hc.
  by rewrite He in Hc.
Qed.

Lemma document_titles patient_info report_data selected last_name :
  has_data report_data selected ->
  report_titles
    (flat_map (fun report_name =>
                 panel_cells report_data report_name
                 ++ if bool_decide (Some report_name = last_name)
                    then [] else patient_cells patient_info) selected)
  = flat_map section_title_of selected.
Proof.
  induction selected as [|name names IH]; intros Hdata; [done|].
  cbn [flat_map]. rewrite !report_titles_app, IH.
  - rewrite report_titles_panel by (intros; apply Hdata; [left|done]).
    assert (report_titles (if bool_decide (Some name = last_name)
                           then [] else patient_cells patient_info) = [])
      as -> by (destruct (bool_decide _); reflexivity).
    by rewrite app_nil_r.
  - intros n Hn. apply Hdata. by right.
Qed.

(** X7. The section titles of the written document (written under the
    conditions of X6) are those of the blood counts and liver panels in the
    selection, in selection order; no other selected name contributes a
    title. *)
Theorem report_sections_in_order (os : OS) (patient_info : PatientInfo)
    (report_data : gmap (list N) (list Row)) (selected_reports : list pystr)
    (logo : option pystr) (fs : gmap (list N) file) :
  has_data report_data selected_reports ->
  writable os (report_filename os patient_info) = true ->
  encodable (document_cells patient_info report_data selected_reports)
  = true ->
  exists document,
    create_pdf_report os patient_info report_data selected_reports logo fs
    = (Ok (report_filename os patient_info),
       <[report_filename os patient_info := PdfFile document]> fs)
    /\ report_titles document = flat_map section_title_of selected_reports.
Proof.
  intros Hdata Hw He.
  pose proof (create_pdf_report_cells os patient_info report_data
                selected_reports logo fs Hdata Hw) as Hcells.
  rewrite He in Hcells. destruct Hcells as (doc & E & Hc).
  exists doc. split; [done|].
  rewrite <- report_titles_cells, Hc. unfold document_cells.
  rewrite report_titles_app. by rewrite document_titles.
Qed.

Lemma document_blocks patient_info report_data selected last_name :
  patient_blocks
    (flat_map (fun report_name =>
                 panel_cells report_data report_name
                 ++ if bool_decide (Some report_name = last_name)
                    then [] else patient_cells patient_info) selected)
  = length (List.filter
              (fun name => negb (bool_decide (Some name = last_name)))
              selected).
Proof.
  induction selected as [|name names IH]; [done|].
  cbn [flat_map List.filter].
  rewrite !patient_blocks_app, IH, patient_blocks_panel.
  by destruct (bool_decide _).
Qed.

(** X8. The document (written under the conditions of X6) holds one patient
    block at its start and one more after every selected name that differs
    from the last one selected.  For a selection without repeats that is one
    block per selected report. *)
Theorem patient_block_per_report (os : OS) (patient_info : PatientInfo)
    (report_data : gmap (list N) (list Row)) (selected_reports : list pystr)
    (logo : option pystr) (fs : gmap (list N) file) :
  has_data report_data selected_reports ->
  writable os (report_filename os patient_info) = true ->
  encodable (document_cells patient_info report_data selected_reports)
  = true ->
  exists document,
    create_pdf_report os patient_info report_data selected_reports logo fs
    = (Ok (report_filename os patient_info),
       <[report_filename os patient_info := PdfFile document]> fs)
    /\ patient_blocks document
       = S (length (List.filter
                      (fun name =>
                         negb (bool_decide (Some name = last selected_reports)))
                      selected_reports))
    /\ (NoDup selected_reports -> selected_reports ≠ [] ->
        patient_blocks document = length selected_reports).
Proof.
  intros Hdata Hw He.
  pose proof (create_pdf_report_cells os patient_info report_data
                selected_reports logo fs Hdata Hw) as Hcells.
  rewrite He in Hcells. destruct Hcells as (doc & E & Hc).
  exists doc. split; [done|].
  assert (patient_blocks doc
          = S (length (List.filter
                         (fun name =>
                            negb (bool_decide (Some name = last selected_reports)))
                         selected_reports))) as Hn.
  { rewrite <- patient_blocks_cells, Hc. unfold document_cells.
    by rewrite patient_blocks_app, document_blocks. }
  split; [done|]. intros Hnd Hne. rewrite Hn.
  destruct (last selected_reports) as [l|] eqn:El.
  - apply last_differs_count; [done|]. by apply last_Some_elem_of.
  - by apply last_None in El.
Qed.

(** X9. When a selected blood count or liver panel has no table in
    [report_data], and the names before it could be drawn, the call raises
    [KeyError] for that name and writes no file. *)
Theorem missing_panel_data_raises (os : OS) (patient_info : PatientInfo)
    (report_data : gmap (list N) (list Row)) (before after : list pystr)
    (name : pystr) (logo : option pystr) (fs : gmap (list N) file) :
  has_data report_data before ->
  name = CBC \/ name = LFT ->
  report_data !! name = None ->
  create_pdf_report os patient_info report_data (before ++ name :: after)
    logo fs
  = (Raise (KeyError name), fs).
Proof.
  intros Hdata Hname Hnone. unfold create_pdf_report.
  set (sel := before ++ name :: after).
  destruct (first_page_ready logo) as (s1 & E1 & Hl1 & Hc1).
  destruct (draws_with_patient_info patient_info (pen s1) s1 Hl1 eq_refl)
    as ([] & s2 & E2 & Hl2 & Hp2 & Hc2).
  assert (ready s2) as Hs2.
  { split; [done|]. injection Hp2 as Hf _ _. by rewrite Hf. }
  destruct (draws_selection patient_info report_data before (last sel)
              Hdata s2 Hs2) as ([] & s3 & E3 & Hs3 & Hc3).
  rewrite (bind_ok _ _ _ _ _ E1), (bind_ok _ _ _ _ _ E2).
  erewrite bind_raise; [reflexivity|].
  unfold sel at 1. rewrite for_each_app, (bind_ok _ _ _ _ _ E3).
  simpl. apply bind_raise, bind_raise.
  unfold str_eqb.
  destruct Hname as [-> | ->].
  - rewrite bool_decide_eq_true_2 by done.
    unfold generate_cbc_report, lookup_report. by rewrite Hnone.
  - rewrite bool_decide_eq_false_2 by done.
    rewrite bool_decide_eq_true_2 by done.
    unfold generate_lft_report, lookup_report. by rewrite Hnone.
Qed.

(** X10. One click on "Generate" touches no file but the report file; a
    click that shows an error leaves the disk exactly as it was.  The click
    shows either two error boxes, the error and the advice to check the
    inputs, or the success note and the download link. *)
Theorem generate_touches_only_report_file (os : OS)
    (patient_data : PatientInfo) (report_data : gmap (list N) (list Row))
    (selected_reports : list pystr) (fs fs' : gmap (list N) file)
    (out : list shown) :
  generate_clicked os patient_data report_data selected_reports fs
  = (out, fs') ->
  (forall path, path ≠ report_filename os patient_data ->
                fs' !! path = fs !! path)
  /\ ((exists e, Error e ∈ out) -> fs' = fs)
  /\ ((exists e, out = [Error e; CheckInputs])
      \/ exists pdf_data,
           out = [Success; DownloadLink pdf_data
                             (report_filename os patient_data)]).
Proof.
  unfold generate_clicked.
  match goal with |- context [create_pdf_report ?a ?b ?c ?d ?l ?f] =>
    destruct (create_pdf_report_cases a b c d l f)
      as [(document & _ & ->) | (e & ->)] end.
  - rewrite lookup_insert_eq.
    rewrite bool_decide_eq_true_2 by by eexists.
    intros [= <- <-]. split_and!.
    + intros path Hp.
      destruct (removable os _);
        by rewrite ?lookup_delete_ne, ?lookup_insert_ne.
    + intros [e He]. exfalso.
      repeat (apply elem_of_cons in He as [He | He]; [discriminate He|]).
      by apply elem_of_nil in He.
    + right. by eexists.
  - intros [= <- <-]. split_and!; [done|done|]. left. by exists e.
Qed.

(** X11. The file name of a report is the patient name with every blank
    turned into an underscore and every other character left as it is, in
    place, followed by an underscore, the time stamp and ".pdf".  So the
    file name holds no blank whenever the time stamp holds none, and a path
    separator in the patient name is still in the file name. *)
Theorem report_filename_characters (os : OS) (patient_info : PatientInfo) :
  (forall i c, patient_name patient_info !! i = Some c ->
     report_filename os patient_info !! i
     = Some (if (c =? 32)%N then 95%N else c))
  /\ drop (length (patient_name patient_info))
        (report_filename os patient_info)
     = py "_" ++ timestamp os ++ py ".pdf"
  /\ (32 ∉ timestamp os -> 32 ∉ report_filename os patient_info)
  /\ (47 ∈ patient_name patient_info -> 47 ∈ report_filename os patient_info).
Proof.
  unfold report_filename. split_and!.
  - intros i c Hi. rewrite lookup_app_l.
    + unfold replace. by rewrite list_lookup_fmap, Hi.
    + unfold replace. rewrite length_fmap. by eapply lookup_lt_Some.
  - rewrite drop_app_length'; [done|]. unfold replace. by rewrite length_fmap.
  - intros Ht. rewrite !not_elem_of_app. split_and!; try done.
    + apply replace_no_space.
    + apply (bool_decide_unpack _). by vm_compute.
    + apply (bool_decide_unpack _). by vm_compute.
  - intros Hp. apply elem_of_app. left. by apply replace_keeps.
Qed.

End WholeReport.

(** ** Pages *)

(** X12. [add_page] with the report's [header] and [footer]: the page that
    ends gets the note on bold values in italic 8 pt, the new page starts
    with the rule, and the cursor stands 30 units below the top margin.  No
    note is drawn when there was no page yet, nothing goes to the body, and
    a font that was selected stays selected. *)
Theorem new_page_layout (pdf : PDF) :
  exists pdf',
    add_page pdf = (Ok tt, pdf')
    /\ page pdf' = S (page pdf)
    /\ y pdf' = (t_margin pdf + 25 + 5)%float
    /\ body (ops pdf') = body (ops pdf)
    /\ (nonempty (family (font pdf)) = true -> font pdf' = font pdf)
    /\ ops pdf'
       = ops pdf
         ++ (if (0 <? page pdf)%nat
             then [OCell Footer 0 4 (py "Bold Indicates Abnormal Values")
                     (arial (py "I") 8) false (py "C") false]
             else [])
         ++ [OPage (S (page pdf));
             OLine Header (t_margin pdf + 25)%float
               (t_margin pdf + 25)%float].
Proof.
  unfold add_page, add_page_with.
  cbv [mbind M_bind get modify in_layer].
  destruct (0 <? page pdf)%nat, (nonempty (family (font pdf)));
    (eexists; split; [reflexivity|]); simpl;
    rewrite ?body_app; simpl; rewrite ?app_nil_r, <- ?app_assoc; done.
Qed.

Lemma cell_page w hh txt nl align fill s :
  is_Some (unifontsubset s) ->
  exists s1,
    (if PrimFloat.ltb (page_break_trigger s) (y s + hh)
        && negb (bool_decide (layer s = Footer)) && auto_page_break s
     then add_page s = (Ok tt, s1) else s1 = s)
    /\ (cell w hh txt nl align fill s).1 = Ok tt
    /\ page (cell w hh txt nl align fill s).2 = page s1.
Proof.
  intros [b Hb].
  unfold cell, cell_with. rewrite (bind_ok _ _ s s s) by reflexivity.
  rewrite Hb. fold add_page. destruct (_ && _ && _).
  - destruct (add_page_ok s) as (s1 & E & _).
    exists s1. split; [done|]. rewrite (bind_ok _ _ _ _ _ E). by destruct nl.
  - exists s. split; [done|]. by destruct nl.
Qed.

(** X13. On an object whose break trigger lies 60 units above the page end,
    as [LabReportPDF] sets it up, and on which a font has been selected (so
    that [cell] can draw at all), [check_page_break h] answers [True]
    exactly when a cell of height [h] drawn at the same place would start a
    new page by itself; the cell is drawn in either case.  With no font ever
    selected [cell] raises [AttributeError] instead and starts no page. *)
Theorem manual_check_matches_automatic_break (pdf : PDF) (hh w : num)
    (txt : pystr) (nl : bool) (align : pystr) (fill : bool) :
  layer pdf = Body ->
  auto_page_break pdf = true ->
  page_break_trigger pdf = (h pdf - 60)%float ->
  (is_Some (unifontsubset pdf) ->
   ((check_page_break hh pdf).1 = Ok true
    /\ (cell w hh txt nl align fill pdf).1 = Ok tt
    /\ page (cell w hh txt nl align fill pdf).2 = S (page pdf))
   \/ ((check_page_break hh pdf).1 = Ok false
       /\ (cell w hh txt nl align fill pdf).1 = Ok tt
       /\ page (cell w hh txt nl align fill pdf).2 = page pdf))
  /\ (unifontsubset pdf = None ->
      cell w hh txt nl align fill pdf
      = (Raise (AttributeError (py "unifontsubset")), pdf)).
Proof.
  intros Hl Ha Ht. split.
  - intros Hfont.
    destruct (cell_page w hh txt nl align fill pdf Hfont)
      as (s1 & Hs1 & -> & ->).
    rewrite Ht, Hl, Ha in Hs1. simpl in Hs1. rewrite andb_true_r in Hs1.
    destruct (check_page_break_branch pdf hh)
      as [(Hlt & s' & Ea & E) | (Hge & E)].
    + left. rewrite Hlt, Ea in Hs1. injection Hs1 as <-.
      rewrite E. split_and!; [done|done|].
      destruct (add_page_ok pdf) as (s'' & Ea' & Hp & _).
      rewrite Ea in Ea'. by simplify_eq.
    + right. rewrite E, Hge in *. split_and!; [done|done|]. by rewrite Hs1.
  - intros Hnone. unfold cell, cell_with.
    rewrite (bind_ok _ _ pdf pdf pdf) by reflexivity. by rewrite Hnone.
Qed.

(** X14. [add_report_section], given a title in ASCII, returns normally from
    any state of the body and adds one thing to it: the title with its
    letters a to z in upper case, in bold 12 pt.  (Beyond ASCII Python's
    [str.upper] does more than [upper] here, so the statement stays within
    ASCII.) *)
Theorem add_report_section_draws_title (title : pystr) (height_estimate : num)
    (pdf : PDF) :
  layer pdf = Body ->
  Forall (fun c => (c < 128)%N) title ->
  exists pdf',
    add_report_section title height_estimate pdf = (Ok tt, pdf')
    /\ font pdf' = arial (py "B") 12
    /\ body (ops pdf')
       = body (ops pdf)
         ++ [OCell Body 0 8 (upper title) (arial (py "B") 12) false (py "C")
               false].
Proof.
  intros Hl _. unfold add_report_section.
  destruct (check_page_break_body pdf height_estimate Hl)
    as (b & s1 & E1 & Hl1 & Hb1).
  rewrite (bind_ok _ _ _ _ _ E1).
  assert (runs (set_font (py "Arial") (py "B") 12;;
                cell 0 8 (upper title) true (py "C") false;;
                ln 3)
               (pen s1) (arial (py "B") 12, false, Some false)
               [OCell Body 0 8 (upper title) (arial (py "B") 12) false (py "C")
                  false]) as Hr.
  { apply (runs_seq _ _ _ (arial (py "B") 12, false, Some false) _ [] [_]);
      [apply runs_set_font; [set_solver|done]|].
    apply (runs_seq _ _ _ (arial (py "B") 12, false, Some false) _ [_] []);
      [by apply runs_cell|apply runs_ln]. }
  destruct (Hr s1 Hl1 eq_refl) as (pdf' & E & _ & Hp & Hb).
  exists pdf'. split; [done|]. split; [by injection Hp|].
  by rewrite Hb, Hb1.
Qed.

(** ** The logo *)

Create HintDb blind.

Lemma blind_ret {A} (a : A) : logo_blind (mret a).
Proof. by intros l s. Qed.

Lemma blind_raise {A} e : logo_blind (@raise A e).
Proof. by intros l s. Qed.

Lemma blind_bind {A B} (m : M A) (f : A -> M B) :
  logo_blind m -> (forall a, logo_blind (f a)) -> logo_blind (m ≫= f).
Proof.
  intros Hm Hf l s. unfold mbind, M_bind. rewrite Hm.
  destruct (m s) as [[a|e] s']; simpl; [apply Hf|done].
Qed.

Lemma blind_try {A} (m handler : M A) :
  logo_blind m -> logo_blind handler -> logo_blind (try_except m handler).
Proof.
  intros Hm Hh l s. unfold try_except. rewrite Hm.
  destruct (m s) as [[a|e] s']; simpl; [done|apply Hh].
Qed.

Lemma blind_modify (f : PDF -> PDF) :
  (forall l s, f (with_logo l s) = with_logo l (f s)) -> logo_blind (modify f).
Proof. intros Hf l s. unfold modify. simpl. by rewrite Hf. Qed.

Lemma blind_get {A} (f : PDF -> A) :
  (forall l s, f (with_logo l s) = f s) -> logo_blind (get f).
Proof. intros Hf l s. unfold get. simpl. by rewrite Hf. Qed.

Lemma blind_if {A} (b : bool) (m k : M A) :
  logo_blind m -> logo_blind k -> logo_blind (if b then m else k).
Proof. by destruct b. Qed.

Lemma blind_for_each {A} (xs : list A) (step : A -> M unit) :
  (forall x, logo_blind (step x)) -> logo_blind (for_each xs step).
Proof.
  intros Hstep. induction xs as [|x xs IH]; simpl; [apply blind_ret|].
  apply blind_bind; [apply Hstep|done].
Qed.

Lemma blind_set_font fam sty sz : logo_blind (set_font fam sty sz).
Proof.
  intros l s. unfold set_font. simpl.
  match goal with |- context [core_font ?a ?b] => destruct (core_font a b) end;
    reflexivity.
Qed.

Lemma blind_ln hh : logo_blind (ln hh).
Proof. by apply blind_modify. Qed.

Lemma blind_set_y v : logo_blind (set_y v).
Proof. by apply blind_modify. Qed.

Lemma blind_line y1 y2 : logo_blind (line y1 y2).
Proof. by apply blind_modify. Qed.

Lemma blind_put_cell w hh txt nl align fill :
  logo_blind (put_cell w hh txt nl align fill).
Proof. apply blind_modify. intros l s. by destruct nl. Qed.

Lemma blind_get_y : logo_blind get_y.
Proof. by apply blind_get. Qed.

#[local] Hint Resolve blind_ret blind_raise blind_try blind_if blind_set_font
  blind_ln blind_set_y blind_line blind_put_cell blind_get_y blind_for_each
  : blind.

Ltac blind :=
  cbv zeta;
  repeat first
    [ solve [auto with blind]
    | apply blind_if
    | apply blind_try
    | apply blind_bind; [|intros ?]
    | apply blind_modify; intros ? ?; reflexivity
    | apply blind_get; intros ? ?; reflexivity ].

Lemma blind_header : logo_blind header.
Proof. unfold header. blind. Qed.

Lemma blind_footer : logo_blind footer.
Proof. unfold footer. blind. Qed.

Lemma blind_add_page : logo_blind add_page.
Proof.
  pose proof blind_header. pose proof blind_footer.
  unfold add_page, add_page_with, in_layer. blind.
Qed.

Lemma blind_cell w hh txt nl align fill : logo_blind (cell w hh txt nl align fill).
Proof.
  intros l s. unfold cell, cell_with.
  rewrite (bind_ok _ _ (with_logo l s) (with_logo l s) (with_logo l s)),
    (bind_ok _ _ s s s) by reflexivity.
  simpl. fold add_page.
  destruct (unifontsubset s); [|done].
  destruct (_ && _ && _).
  - apply (blind_bind add_page (fun _ => put_cell w hh txt nl align fill));
      [apply blind_add_page|intros _; apply blind_put_cell].
  - apply (blind_bind (mret tt) (fun _ => put_cell w hh txt nl align fill));
      [apply blind_ret|intros _; apply blind_put_cell].
Qed.

Lemma blind_close : logo_blind close.
Proof.
  pose proof blind_footer. pose proof blind_add_page.
  unfold close, close_with, in_layer. fold add_page. blind.
Qed.

#[local] Hint Resolve blind_add_page blind_cell blind_close : blind.

Lemma blind_add_report_title title : logo_blind (add_report_title title).
Proof. unfold add_report_title. blind. Qed.

Lemma blind_add_patient_info patient_info :
  logo_blind (add_patient_info patient_info).
Proof. unfold add_patient_info, field. blind. Qed.

#[local] Hint Resolve blind_add_report_title blind_add_patient_info : blind.

Section LogoFacts.
Context `{PyFloat}.

Lemma blind_render_row row : logo_blind (render_row row).
Proof.
  unfold render_row, regular_result, bold_result.
  destruct (parse_range _) as [[lo|] [hi|]], (float _) as [r|];
    cbv beta iota; blind.
Qed.

Lemma blind_add_test_table data section_title :
  logo_blind (add_test_table data section_title).
Proof.
  pose proof blind_render_row.
  unfold add_test_table. destruct section_title as [t|]; blind.
Qed.

Lemma blind_print_if_has_result subset section_title :
  logo_blind (print_if_has_result subset section_title).
Proof.
  unfold print_if_has_result.
  destruct (List.filter _ _); [apply blind_ret|apply blind_add_test_table].
Qed.

Lemma blind_generate_cbc_report patient_info report_data :
  logo_blind (generate_cbc_report patient_info report_data).
Proof.
  pose proof blind_print_if_has_result.
  unfold generate_cbc_report, lookup_report.
  destruct (report_data !! CBC); blind.
Qed.

Lemma blind_generate_lft_report patient_info report_data :
  logo_blind (generate_lft_report patient_info report_data).
Proof.
  pose proof blind_print_if_has_result.
  unfold generate_lft_report, lookup_report.
  destruct (report_data !! LFT); blind.
Qed.

(** X15. The logo path handed to [create_pdf_report] is stored on the object
    and never looked at: the result, the written document included, is the
    one a call without logo gives. *)
Theorem logo_is_never_drawn (os : OS) (patient_info : PatientInfo)
    (report_data : gmap (list N) (list Row)) (selected_reports : list pystr)
    (logo : option pystr) (fs : gmap (list N) file) :
  create_pdf_report os patient_info report_data selected_reports logo fs
  = create_pdf_report os patient_info report_data selected_reports None fs.
Proof.
  unfold create_pdf_report.
  match goal with |- match ?d (LabReportPDF logo) with _ => _ end = _ =>
    assert (logo_blind d) as Hd end.
  { pose proof blind_generate_cbc_report. pose proof blind_generate_lft_report.
    unfold output. blind. apply blind_for_each. intros name. blind. }
  change (LabReportPDF logo) with (with_logo logo (LabReportPDF None)).
  rewrite Hd.
  match goal with |- context [?d (LabReportPDF None)] =>
    destruct (d (LabReportPDF None)) as [[doc|e] s'] end; reflexivity.
Qed.

End LogoFacts.

(** ** Template rows that cannot be flagged *)

Section FalsyBounds.
Context `{PyFloat}.

Lemma regular_when_bound_falsy row :
  truthy (parse_range (Normal_Values row)).1
  && truthy (parse_range (Normal_Values row)).2 = false ->
  result_font row = regular9.
Proof.
  intros Hb. unfold result_font. destruct (out_of_range row) eqn:Ho; [|done].
  apply out_of_range_iff in Ho as (_ & r & lo & hi & _ & Hrange & _ & Hlo & Hhi & _).
  rewrite Hrange in Hb. simpl in Hb. by rewrite Hlo, Hhi in Hb.
Qed.

End FalsyBounds.

(** X16. With decimal parsing, ten rows of the two printed templates can
    never come out in bold, whatever is typed into Result: the range of
    Haemoglobin does not start with a number, the upper bound of the white
    cell count has a comma, the ranges of Eosinophils, Monocytes, Basophils,
    S.G.O.T. and S.G.P.T. start at zero, and three smear rows carry a word
    for a range. *)
Theorem template_rows_never_bold (name : pystr) (row : Row) (v : value)
    (pdf : PDF) :
  name = CBC \/ name = LFT ->
  row ∈ load_report_template name ->
  isin (Test row)
    [py "Haemoglobin"; py "Total WBC Count"; py "Eosinophils"; py "Monocytes";
     py "Basophils"; py "Platelets on Smear"; py "RBC Morphology";
     py "WBCs on PS"; py "S.G.O.T."; py "S.G.P.T."] = true ->
  layer pdf = Body ->
  exists pdf',
    add_test_table [with_result v row] None pdf = (Ok tt, pdf')
    /\ body (ops pdf')
       = body (ops pdf) ++ table_row_cells (with_result v row) regular9.
Proof.
  intros Hname Hrow Htest Hl.
  destruct (table_trace [with_result v row] None pdf Hl) as (pdf' & E & Hb).
  exists pdf'. split; [done|]. rewrite Hb. cbn [flat_map section_title_cells].
  assert (result_font (with_result v row) = regular9) as ->;
    [|by rewrite app_nil_r].
  apply regular_when_bound_falsy.
  change (Normal_Values (with_result v row)) with (Normal_Values row).
  clear E Hb Hl. destruct Hname as [-> | ->]; vm_compute in Hrow;
    repeat (apply elem_of_cons in Hrow as [-> | Hrow];
            [first [discriminate Htest | vm_compute; reflexivity]|]);
    by apply elem_of_nil in Hrow.
Qed.

(** ** The further statements at work on the sample inputs *)

Lemma sample_ready : ready block_drawn.
Proof. split; vm_compute; reflexivity. Qed.

Lemma sample_has_data : has_data sample_data [CBC; KFT; LFT].
Proof. intros name _ [-> | ->]; eexists; vm_compute; reflexivity. Qed.

Lemma sample_encodable :
  encodable (document_cells sample_patient sample_data [CBC; KFT; LFT])
  = true.
Proof. vm_compute. reflexivity. Qed.

Lemma result_bold_exactly_when_witness :
  layer first_page = Body
  /\ exists pdf' (f : Row -> Font),
       add_test_table [sgot_50; pcv_70] None first_page = (Ok tt, pdf')
       /\ body (ops pdf')
          = body (ops first_page) ++ section_title_cells None
            ++ flat_map (fun row => table_row_cells row (f row))
                 [sgot_50; pcv_70]
       /\ forall row,
            (f row = bold9 \/ f row = regular9)
            /\ (f row = bold9
                <-> nonempty (strip (result_text row)) = true
                    /\ exists r lo hi,
                         float (result_text row) = Some r
                         /\ parse_range (Normal_Values row) = (Some lo, Some hi)
                         /\ ftruth r = true /\ ftruth lo = true
                         /\ ftruth hi = true
                         /\ (flt r lo = true \/ flt hi r = true)).
Proof.
  split; [reflexivity|].
  apply (result_bold_exactly_when [sgot_50; pcv_70]). reflexivity.
Defined.

Lemma zero_is_never_bold_witness :
  layer first_page = Body
  /\ exists pdf' (f : Row -> Font),
       add_test_table [sgot_50] None first_page = (Ok tt, pdf')
       /\ body (ops pdf')
          = body (ops first_page) ++ section_title_cells None
            ++ flat_map (fun row => table_row_cells row (f row)) [sgot_50]
       /\ forall row r lo hi,
            float (result_text row) = Some r ->
            parse_range (Normal_Values row) = (Some lo, Some hi) ->
            ftruth r = false \/ ftruth lo = false \/ ftruth hi = false ->
            f row = regular9.
Proof.
  split; [reflexivity|].
  apply (zero_is_never_bold [sgot_50]). reflexivity.
Defined.

Lemma range_without_upper_bound_is_regular_witness :
  layer first_page = Body
  /\ notna (Normal_Values no_range) = false
  /\ (45 ∉ py "Adequate")
  /\ split 45 (py "5-10") !! 1%nat = Some (py "10")
  /\ (32 ∉ py "10")
  /\ (parse_range (Normal_Values no_range)).2 = None
  /\ (parse_range (Normal_Values smear_adequate)).2 = None
  /\ (parse_range (Normal_Values tight_range)).2 = None
  /\ exists pdf',
       add_test_table [no_range; smear_adequate; tight_range] None first_page
       = (Ok tt, pdf')
       /\ body (ops pdf')
          = body (ops first_page)
            ++ table_row_cells no_range regular9
            ++ table_row_cells smear_adequate regular9
            ++ table_row_cells tight_range regular9.
Proof.
  assert (45 ∉ py "Adequate") as Hhyphen
    by (apply (bool_decide_unpack _); by vm_compute).
  assert (32 ∉ py "10") as Hblank
    by (apply (bool_decide_unpack _); by vm_compute).
  destruct (range_without_upper_bound_is_regular
              [no_range; smear_adequate; tight_range] None first_page eq_refl)
    as (pdf' & f & E & Hb & Hf).
  destruct (Hf no_range (or_introl eq_refl)) as [Hup0 Hf0].
  destruct (Hf smear_adequate
              (or_intror (or_introl
                 (ex_intro _ (py "Adequate") (conj eq_refl Hhyphen)))))
    as [Hup1 Hf1].
  destruct (Hf tight_range
              (or_intror (or_intror
                 (ex_intro _ (py "5-10")
                    (ex_intro _ (py "10")
                       (conj eq_refl (conj eq_refl Hblank)))))))
    as [Hup2 Hf2].
  split; [reflexivity|]. split; [reflexivity|]. split; [exact Hhyphen|].
  split; [reflexivity|]. split; [exact Hblank|].
  split; [exact Hup0|]. split; [exact Hup1|]. split; [exact Hup2|].
  exists pdf'. split; [exact E|]. rewrite Hb. cbn [flat_map].
  rewrite Hf0, Hf1, Hf2. reflexivity.
Defined.

Lemma section_draws_rows_with_results_witness :
  ready block_drawn
  /\ exists pdf',
       print_if_has_result [pcv_70; mcv_blank] (Some (py "RBC INDICES"))
         block_drawn = (Ok tt, pdf')
       /\ ready pdf'
       /\ cells (ops pdf')
          = cells (ops block_drawn)
            ++ match List.filter has_result [pcv_70; mcv_blank] with
               | [] => []
               | rows =>
                   section_title_cells (Some (py "RBC INDICES"))
                   ++ flat_map
                        (fun row => table_row_cells row (result_font row)) rows
               end.
Proof.
  split; [exact sample_ready|].
  apply (section_draws_rows_with_results [pcv_70; mcv_blank]).
  exact sample_ready.
Defined.

Lemma unfilled_panel_draws_no_row_witness :
  ready block_drawn
  /\ exists pdf',
       generate_cbc_report sample_patient
         (<[CBC := load_report_template CBC]> sample_data) block_drawn
       = (Ok tt, pdf')
       /\ cells (ops pdf')
          = cells (ops block_drawn)
            ++ title_cells (py "COMPLETE BLOOD COUNT(CBC)")
            ++ [note_cell
                  (py "Test done on Nihon Kohden MEK- 6420K fully automated cell counter.")].
Proof.
  split; [exact sample_ready|].
  exact (proj1 (unfilled_panel_draws_no_row sample_patient sample_data
                  block_drawn sample_ready)).
Defined.

Lemma report_document_cells_witness :
  has_data sample_data [CBC; KFT; LFT]
  /\ writable sample_os (report_filename sample_os sample_patient) = true
  /\ encodable (document_cells sample_patient sample_data [CBC; KFT; LFT])
     = true
  /\ exists document,
       create_pdf_report sample_os sample_patient sample_data [CBC; KFT; LFT]
         None ∅
       = (Ok (report_filename sample_os sample_patient),
          <[report_filename sample_os sample_patient := PdfFile document]> ∅)
       /\ cells document
          = document_cells sample_patient sample_data [CBC; KFT; LFT].
Proof.
  split; [exact sample_has_data|]. split; [reflexivity|].
  split; [exact sample_encodable|].
  apply (report_document_cells sample_os sample_patient sample_data
           [CBC; KFT; LFT] None ∅ sample_has_data);
    [reflexivity|exact sample_encodable].
Defined.

Lemma unencodable_text_raises_witness :
  has_data sample_data [CBC; KFT; LFT]
  /\ writable sample_os (report_filename sample_os patient_in_hindi) = true
  /\ encodable (document_cells patient_in_hindi sample_data [CBC; KFT; LFT])
     = false
  /\ create_pdf_report sample_os patient_in_hindi sample_data [CBC; KFT; LFT]
       None sample_disk
     = (Raise UnicodeEncodeError, sample_disk).
Proof.
  assert (encodable
            (document_cells patient_in_hindi sample_data [CBC; KFT; LFT])
          = false) as He by (vm_compute; reflexivity).
  split; [exact sample_has_data|]. split; [reflexivity|].
  split; [exact He|].
  apply (unencodable_text_raises sample_os patient_in_hindi sample_data
           [CBC; KFT; LFT] None sample_disk sample_has_data);
    [reflexivity|exact He].
Defined.

Lemma report_sections_in_order_witness :
  has_data sample_data [CBC; KFT; LFT]
  /\ writable sample_os (report_filename sample_os sample_patient) = true
  /\ encodable (document_cells sample_patient sample_data [CBC; KFT; LFT])
     = true
  /\ exists document,
       create_pdf_report sample_os sample_patient sample_data [CBC; KFT; LFT]
         None ∅
       = (Ok (report_filename sample_os sample_patient),
          <[report_filename sample_os sample_patient := PdfFile document]> ∅)
       /\ report_titles document
          = flat_map section_title_of [CBC; KFT; LFT].
Proof.
  split; [exact sample_has_data|]. split; [reflexivity|].
  split; [exact sample_encodable|].
  apply (report_sections_in_order sample_os sample_patient sample_data
           [CBC; KFT; LFT] None ∅ sample_has_data);
    [reflexivity|exact sample_encodable].
Defined.

Lemma patient_block_per_report_witness :
  has_data sample_data [CBC; KFT; LFT]
  /\ writable sample_os (report_filename sample_os sample_patient) = true
  /\ encodable (document_cells sample_patient sample_data [CBC; KFT; LFT])
     = true
  /\ exists document,
       create_pdf_report sample_os sample_patient sample_data [CBC; KFT; LFT]
         None ∅
       = (Ok (report_filename sample_os sample_patient),
          <[report_filename sample_os sample_patient := PdfFile document]> ∅)
       /\ patient_blocks document
          = S (length (List.filter
                         (fun name =>
                            negb (bool_decide
                                    (Some name = last [CBC; KFT; LFT])))
                         [CBC; KFT; LFT]))
       /\ (NoDup [CBC; KFT; LFT] -> [CBC; KFT; LFT] ≠ [] ->
           patient_blocks document = length [CBC; KFT; LFT]).
Proof.
  split; [exact sample_has_data|]. split; [reflexivity|].
  split; [exact sample_encodable|].
  apply (patient_block_per_report sample_os sample_patient sample_data
           [CBC; KFT; LFT] None ∅ sample_has_data);
    [reflexivity|exact sample_encodable].
Defined.

Lemma missing_panel_data_raises_witness :
  has_data sample_data [LFT]
  /\ (CBC = CBC \/ CBC = LFT)
  /\ delete CBC sample_data !! CBC = None
  /\ create_pdf_report sample_os sample_patient (delete CBC sample_data)
       ([LFT] ++ CBC :: [KFT]) None ∅
     = (Raise (KeyError CBC), ∅).
Proof.
  assert (has_data (delete CBC sample_data) [LFT]) as Hd.
  { intros name Hn _. apply list_elem_of_singleton in Hn as ->.
    eexists. vm_compute. reflexivity. }
  split; [intros name _ [-> | ->]; eexists; vm_compute; reflexivity|].
  split; [by left|]. split; [apply lookup_delete_eq|].
  apply (missing_panel_data_raises sample_os sample_patient
           (delete CBC sample_data) [LFT] [KFT] CBC None ∅ Hd);
    [by left|apply lookup_delete_eq].
Defined.

Lemma generate_touches_only_report_file_witness :
  ((generate_clicked sample_os sample_patient sample_data [CBC] sample_disk).2
     !! py "notes.txt"
   = Some OtherFile
   /\ ((exists e,
          (generate_clicked sample_os sample_patient sample_data [CBC]
             sample_disk).1 = [Error e; CheckInputs])
       \/ exists pdf_data,
            (generate_clicked sample_os sample_patient sample_data [CBC]
               sample_disk).1
            = [Success;
               DownloadLink pdf_data
                 (report_filename sample_os sample_patient)]))
  /\ (Error UnicodeEncodeError
      ∈ (generate_clicked sample_os patient_in_hindi sample_data [CBC]
           sample_disk).1)
  /\ (generate_clicked sample_os patient_in_hindi sample_data [CBC]
        sample_disk).2 = sample_disk.
Proof.
  assert (forall patient,
            generate_clicked sample_os patient sample_data [CBC] sample_disk
            = ((generate_clicked sample_os patient sample_data [CBC]
                  sample_disk).1,
               (generate_clicked sample_os patient sample_data [CBC]
                  sample_disk).2)) as E
    by (intros patient; by destruct (generate_clicked _ _ _ _ _)).
  assert (Error UnicodeEncodeError
          ∈ (generate_clicked sample_os patient_in_hindi sample_data [CBC]
               sample_disk).1) as Herror
    by (vm_compute; left).
  destruct (generate_touches_only_report_file sample_os sample_patient
              sample_data [CBC] sample_disk _ _ (E sample_patient))
    as (Hrest & _ & Hout).
  destruct (generate_touches_only_report_file sample_os patient_in_hindi
              sample_data [CBC] sample_disk _ _ (E patient_in_hindi))
    as (_ & Hsame & _).
  split; [split; [|exact Hout]|split; [exact Herror|]].
  - rewrite (Hrest (py "notes.txt")); [reflexivity|].
    intros E'. vm_compute in E'. discriminate E'.
  - apply Hsame. by exists UnicodeEncodeError.
Defined.

Lemma report_filename_characters_witness :
  patient_name sample_patient !! 3%nat = Some 32%N
  /\ report_filename sample_os sample_patient !! 3%nat = Some 95%N
  /\ patient_name sample_patient !! 4%nat = Some 65%N
  /\ report_filename sample_os sample_patient !! 4%nat = Some 65%N
  /\ drop (length (patient_name sample_patient))
        (report_filename sample_os sample_patient)
     = py "_" ++ timestamp sample_os ++ py ".pdf"
  /\ (32 ∉ timestamp sample_os)
  /\ (32 ∉ report_filename sample_os sample_patient)
  /\ (47 ∈ patient_name patient_with_slash)
  /\ (47 ∈ report_filename sample_os patient_with_slash).
Proof.
  assert (32 ∉ timestamp sample_os) as Ht
    by (apply (bool_decide_unpack _); by vm_compute).
  assert (47 ∈ patient_name patient_with_slash) as Hs
    by (apply (bool_decide_unpack _); by vm_compute).
  destruct (report_filename_characters sample_os sample_patient)
    as (Hat & Hdrop & Hblank & _).
  destruct (report_filename_characters sample_os patient_with_slash)
    as (_ & _ & _ & Hslash).
  split; [reflexivity|].
  split; [exact (Hat 3%nat 32%N eq_refl)|].
  split; [reflexivity|].
  split; [exact (Hat 4%nat 65%N eq_refl)|].
  split; [exact Hdrop|]. split; [exact Ht|]. split; [exact (Hblank Ht)|].
  split; [exact Hs|exact (Hslash Hs)].
Defined.

Lemma manual_check_matches_automatic_break_witness :
  (layer block_drawn = Body
   /\ auto_page_break block_drawn = true
   /\ page_break_trigger block_drawn = (h block_drawn - 60)%float
   /\ is_Some (unifontsubset block_drawn)
   /\ (((check_page_break 20 block_drawn).1 = Ok true
        /\ (cell 0 20 (py "x") true (py "C") false block_drawn).1 = Ok tt
        /\ page (cell 0 20 (py "x") true (py "C") false block_drawn).2
           = S (page block_drawn))
       \/ ((check_page_break 20 block_drawn).1 = Ok false
           /\ (cell 0 20 (py "x") true (py "C") false block_drawn).1 = Ok tt
           /\ page (cell 0 20 (py "x") true (py "C") false block_drawn).2
              = page block_drawn)))
  /\ (layer first_page = Body
      /\ auto_page_break first_page = true
      /\ page_break_trigger first_page = (h first_page - 60)%float
      /\ unifontsubset first_page = None
      /\ cell 0 20 (py "x") true (py "C") false first_page
         = (Raise (AttributeError (py "unifontsubset")), first_page)).
Proof.
  assert (layer block_drawn = Body) as Hl by (vm_compute; reflexivity).
  assert (auto_page_break block_drawn = true) as Ha
    by (vm_compute; reflexivity).
  assert (page_break_trigger block_drawn = (h block_drawn - 60)%float) as Ht
    by (vm_compute; reflexivity).
  assert (is_Some (unifontsubset block_drawn)) as Hf
    by (exists false; vm_compute; reflexivity).
  assert (layer first_page = Body) as Hl' by (vm_compute; reflexivity).
  assert (auto_page_break first_page = true) as Ha'
    by (vm_compute; reflexivity).
  assert (page_break_trigger first_page = (h first_page - 60)%float) as Ht'
    by (vm_compute; reflexivity).
  assert (unifontsubset first_page = None) as Hn
    by (vm_compute; reflexivity).
  split.
  - split; [exact Hl|]. split; [exact Ha|]. split; [exact Ht|].
    split; [exact Hf|].
    exact (proj1 (manual_check_matches_automatic_break block_drawn 20 0
                    (py "x") true (py "C") false Hl Ha Ht) Hf).
  - split; [exact Hl'|]. split; [exact Ha'|]. split; [exact Ht'|].
    split; [exact Hn|].
    exact (proj2 (manual_check_matches_automatic_break first_page 20 0
                    (py "x") true (py "C") false Hl' Ha' Ht') Hn).
Defined.

Lemma add_report_section_draws_title_witness :
  layer first_page = Body
  /\ Forall (fun c => (c < 128)%N) (py "Summary")
  /\ exists pdf',
       add_report_section (py "Summary") 20 first_page = (Ok tt, pdf')
       /\ font pdf' = arial (py "B") 12
       /\ body (ops pdf')
          = body (ops first_page)
            ++ [OCell Body 0 8 (upper (py "Summary")) (arial (py "B") 12)
                  false (py "C") false].
Proof.
  assert (Forall (fun c => (c < 128)%N) (py "Summary")) as Hascii
    by (apply (bool_decide_unpack _); by vm_compute).
  split; [reflexivity|]. split; [exact Hascii|].
  apply (add_report_section_draws_title (py "Summary") 20 first_page);
    [reflexivity|exact Hascii].
Defined.

Lemma template_rows_never_bold_witness :
  (CBC = CBC \/ CBC = LFT)
  /\ eosinophils ∈ load_report_template CBC
  /\ isin (Test eosinophils)
       [py "Haemoglobin"; py "Total WBC Count"; py "Eosinophils";
        py "Monocytes"; py "Basophils"; py "Platelets on Smear";
        py "RBC Morphology"; py "WBCs on PS"; py "S.G.O.T."; py "S.G.P.T."]
     = true
  /\ layer first_page = Body
  /\ exists pdf',
       add_test_table [with_result (VStr (py "20")) eosinophils] None
         first_page = (Ok tt, pdf')
       /\ body (ops pdf')
          = body (ops first_page)
            ++ table_row_cells (with_result (VStr (py "20")) eosinophils)
                 regular9.
Proof.
  assert (eosinophils ∈ load_report_template CBC) as Hin
    by (apply list_elem_of_lookup; exists 10%nat; reflexivity).
  split; [by left|]. split; [exact Hin|]. split; [reflexivity|].
  split; [reflexivity|].
  apply (template_rows_never_bold CBC eosinophils (VStr (py "20")) first_page);
    [by left|exact Hin|reflexivity|reflexivity].
Defined.

Lemma blank_rows_are_skipped_witness :
  blank_result mcv_blank
  /\ generate_cbc_report sample_patient
       (<[CBC := [pcv_70] ++ mcv_blank :: []]> sample_data) first_page
     = generate_cbc_report sample_patient
         (<[CBC := [pcv_70] ++ []]> sample_data) first_page
  /\ generate_lft_report sample_patient
       (<[LFT := [sgot_50] ++ mcv_blank :: []]> sample_data) first_page
     = generate_lft_report sample_patient
         (<[LFT := [sgot_50] ++ []]> sample_data) first_page
  /\ print_if_has_result [mcv_blank] (Some (py "RBC INDICES")) first_page
     = (Ok tt, first_page)
  /\ ready block_drawn
  /\ sample_data !! CBC = Some [pcv_70; mcv_blank]
  /\ (exists pdf',
        generate_cbc_report sample_patient sample_data block_drawn
        = (Ok tt, pdf')
        /\ cells (ops pdf')
           = cells (ops block_drawn)
             ++ title_cells (py "COMPLETE BLOOD COUNT(CBC)")
             ++ table_row_cells pcv_70 bold9
             ++ [note_cell
                   (py "Test done on Nihon Kohden MEK- 6420K fully automated cell counter.")])
  /\ sample_data !! LFT = Some [sgot_50]
  /\ (exists pdf',
        generate_lft_report sample_patient sample_data block_drawn
        = (Ok tt, pdf')
        /\ cells (ops pdf')
           = cells (ops block_drawn)
             ++ title_cells (py "Liver Function Test (LFT)")
             ++ table_row_cells sgot_50 regular9
             ++ [note_cell
                   (py "Test Done on semi automated analyser Micro Lab RX-50.")])
  /\ section_cells [mcv_blank] (Some (py "RBC INDICES")) = []
  /\ section_cells ([pcv_70] ++ mcv_blank :: []) None
     = section_cells ([pcv_70] ++ []) None.
Proof.
  assert (blank_result mcv_blank) as Hb by (repeat constructor).
  assert (sample_data !! CBC = Some [pcv_70; mcv_blank]) as Hcbc
    by (vm_compute; reflexivity).
  assert (sample_data !! LFT = Some [sgot_50]) as Hlft
    by (vm_compute; reflexivity).
  destruct blank_rows_are_skipped
    as (Hrow_cbc & Hrow_lft & Hhelper & Hdraw_cbc & Hdraw_lft & Hnone
        & Hdrop).
  split; [exact Hb|].
  split; [exact (Hrow_cbc sample_patient sample_data [pcv_70] mcv_blank []
                   first_page Hb)|].
  split; [exact (Hrow_lft sample_patient sample_data [sgot_50] mcv_blank []
                   first_page Hb)|].
  split; [apply Hhelper; by constructor|].
  split; [exact sample_ready|]. split; [exact Hcbc|].
  split.
  { destruct (Hdraw_cbc sample_patient sample_data _ block_drawn sample_ready
                Hcbc) as (pdf' & E & Hc).
    exists pdf'. split; [exact E|]. rewrite Hc. f_equal. }
  split; [exact Hlft|].
  split.
  { destruct (Hdraw_lft sample_patient sample_data _ block_drawn sample_ready
                Hlft) as (pdf' & E & Hc).
    exists pdf'. split; [exact E|]. rewrite Hc. f_equal. }
  split; [apply Hnone; by constructor|].
  exact (Hdrop [pcv_70] mcv_blank [] None Hb).
Defined.
